(** * KPiX-Lycoris PGP transport: frame codec, routing, correlator, scheduler

    A shallow embedding of the transport core of
    [src/generic/MultDestPgpMask.cpp] (synchronous variant, routing from an
    explicit configuration word) and [src/generic/PgpCardG3Link.cpp]
    (asynchronous variant, routing derived from address and opcode bits).

    Machine words are integers in [Z] with the 32-bit wrap-around written
    out; buffers are lists of 32-bit words indexed from 0, read with
    [!!] and written with [<[i:=v]>]. *)

From Stdlib Require Import ZArith Lia Bool.
From stdpp Require Import base numbers list.

Open Scope Z_scope.

(** ** 32-bit machine words *)

Module Word32.

Definition modulus : Z := 2 ^ 32.

(** [uint32_t] arithmetic keeps the low 32 bits. *)
Definition wrap (x : Z) : Z := x mod modulus.

(** Reinterpretation of a 32-bit pattern as [int32_t]. *)
Definition signed (x : Z) : Z :=
  let u := wrap x in if u <? 2 ^ 31 then u else u - modulus.

(** [x << n] and [x >> n] on [uint32_t]; the shift count is below 32
    wherever the sources use them on defined behaviour. *)
Definition shl (x n : Z) : Z := wrap (Z.shiftl x n).
Definition shr (x n : Z) : Z := Z.shiftr x n.

Definition add (x y : Z) : Z := wrap (x + y).
Definition sub (x y : Z) : Z := wrap (x - y).
Definition mul (x y : Z) : Z := wrap (x * y).

(** [x++] on a [uint32_t] counter. *)
Definition incr (x : Z) : Z := wrap (x + 1).

(** [int32_t] multiplication on a two's-complement machine. *)
Definition smul (x y : Z) : Z := signed (x * y).

(** A word used as a condition: true when it is not zero. *)
Definition nz (x : Z) : bool := negb (x =? 0).

End Word32.

(** ** The register entity ([Register.h], used through its accessors)

    [address()], [data()], [size()], [setAddress], [setStatus]: an address,
    a buffer of [size] words and the status of the last transaction. *)

Record Register : Type := mkRegister {
  address : Z;
  data    : list Z;
  size    : Z;
  status  : Z
}.

Definition setAddress (r : Register) (a : Z) : Register :=
  {| address := a; data := data r; size := size r; status := status r |}.

Definition setStatus (r : Register) (s : Z) : Register :=
  {| address := address r; data := data r; size := size r; status := s |}.

Definition setData (r : Register) (d : list Z) : Register :=
  {| address := address r; data := d; size := size r; status := status r |}.

(** The data buffer of a register holds exactly [size] words. *)
Definition reg_wf (r : Register) : Prop :=
  0 <= size r /\ length (data r) = Z.to_nat (size r).

(** ** Word buffers *)

Module Buf.

(** [buf[i] = v]; an index past the end leaves the list as it is (the
    sources never write there when the buffer has the capacity the
    theorems assume). *)
Definition store (buf : list Z) (i : Z) (v : Z) : list Z :=
  if i <? 0 then buf else <[Z.to_nat i := v]> buf.

(** [buf[i]], 0 when nothing is there. *)
Definition load (buf : list Z) (i : Z) : Z :=
  if i <? 0 then 0 else default 0 (buf !! Z.to_nat i).

(** [memcpy(&dst[off], src, nbytes)] on word buffers: the first
    [nbytes/4] words of [src] replace the words of [dst] from [off]. *)
Definition memcpy (dst : list Z) (off : Z) (src : list Z) (nbytes : Z)
  : list Z :=
  let n := Z.to_nat (nbytes / 4) in
  let o := Z.to_nat off in
  take o dst ++ take n src ++ drop (o + n) dst.

(** The word whose four bytes are all [c & 0xFF]. *)
Definition splat (c : Z) : Z :=
  let b := Z.land c 255 in
  Z.lor b (Z.lor (Z.shiftl b 8) (Z.lor (Z.shiftl b 16) (Z.shiftl b 24))).

(** [memset(dst, c, nbytes)] on a word buffer, [nbytes] a multiple of 4. *)
Definition memset (dst : list Z) (c : Z) (nbytes : Z) : list Z :=
  let n := Z.to_nat (nbytes / 4) in
  replicate (min n (length dst)) (splat c) ++ drop n dst.

(** [memcmp(a, b, 8) == 0]: the first two words agree. *)
Definition eq8 (a b : list Z) : bool :=
  (load a 0 =? load b 0) && (load a 1 =? load b 1).

End Buf.

(** ** The link I/O primitive ([pgpcard_send], [pgpcard_recv])

    The driver is outside the transport core.  A [Link] carries what the
    driver will answer to each successive [pgpcard_send] and records every
    call made; a [RxResult] is one answer of [pgpcard_recv]. *)

Record SendArgs : Type := mkSendArgs {
  s_buf  : list Z;   (* the buffer the pointer argument designates *)
  s_size : Z;        (* word count *)
  s_lane : Z;
  s_vc   : Z
}.

(** The words that go on the wire. *)
Definition frame_of (a : SendArgs) : list Z :=
  take (Z.to_nat (s_size a)) (s_buf a).

Record Link : Type := mkLink {
  sendRet : nat -> Z;       (* return value of the n-th call, negative on failure *)
  calls   : nat;            (* calls made so far *)
  sent    : list SendArgs   (* their arguments, oldest first *)
}.

Definition pgpcard_send (lk : Link) (a : SendArgs) : Z * Link :=
  (sendRet lk (calls lk),
   {| sendRet := sendRet lk; calls := S (calls lk); sent := sent lk ++ [a] |}).

Record RxResult : Type := mkRxResult {
  rx_ret       : Z;        (* words received, 0 or negative when none *)
  rx_buf       : list Z;   (* the receive buffer after the call *)
  rx_lane      : Z;
  rx_vc        : Z;
  rx_eofe      : Z;
  rx_fifoErr   : Z;
  rx_lengthErr : Z
}.

(** ** Synchronous variant: [MultDestPgpMask] *)

Module MultDestPgpMask.

Inductive MultType : Type :=
| MultTypeRegisterWrite
| MultTypeRegisterRead
| MultTypeCommand
| MultTypeData.

(** What the [void *ptr] argument of [transmit] designates. *)
Inductive Payload : Type :=
| PReg (reg : Register)
| PCmd (opCode : Z)
| PRaw (words : list Z).

(** Routing fields of the link configuration word
    (bits 11:8 / 15:12 register, 19:16 / 23:20 command,
     27:24 / 31:28 data). *)
Definition regLane  (config : Z) : Z := Z.land (Word32.shr config 12) 0xf.
Definition regVc    (config : Z) : Z := Z.land (Word32.shr config  8) 0xf.
Definition cmdLane  (config : Z) : Z := Z.land (Word32.shr config 20) 0xf.
Definition cmdVc    (config : Z) : Z := Z.land (Word32.shr config 16) 0xf.
Definition dataLane (config : Z) : Z := Z.land (Word32.shr config 28) 0xf.
Definition dataVc   (config : Z) : Z := Z.land (Word32.shr config 24) 0xf.

(** The packed routing value [receive] builds from the lane and vc of a
    received frame: the data fields of a configuration word. *)
Definition dataSourceOf (lane vc : Z) : Z :=
  Word32.add (Z.land (Word32.shl lane 28) 0xF0000000)
             (Z.land (Word32.shl vc 24) 0x0F000000).

(** The register and command fields of a configuration word, packed at
    the positions the header of [MultDestPgpMask.cpp] documents (lane
    15:12 and vc 11:8, lane 23:20 and vc 19:16), the way [receive] packs
    the data fields. *)
Definition regConfig (lane vc : Z) : Z :=
  Word32.add (Z.land (Word32.shl lane 12) 0x0000F000)
             (Z.land (Word32.shl vc 8) 0x00000F00).

Definition cmdConfig (lane vc : Z) : Z :=
  Word32.add (Z.land (Word32.shl lane 20) 0x00F00000)
             (Z.land (Word32.shl vc 16) 0x000F0000).

(** A whole configuration word as that header lays it out: index in bits
    7:0 and one routing pair per transaction class. *)
Definition linkConfig (idx : Z) (reg cmd dat : Z * Z) : Z :=
  Word32.add (Z.land idx 0xFF)
    (Word32.add (regConfig (fst reg) (snd reg))
       (Word32.add (cmdConfig (fst cmd) (snd cmd))
                   (dataSourceOf (fst dat) (snd dat)))).

(** The [switch] of [transmit]: fills the transmit buffer [txData_] and
    chooses size, lane and vc.  A [ptr] that is not what [type] says has
    no meaning in the source and gives [None]. *)
Definition setup (txData_ : list Z) (type : MultType) (ptr : Payload)
           (size_ context config : Z) : option SendArgs :=
  match type, ptr with
  | (MultTypeRegisterWrite | MultTypeRegisterRead), PReg reg =>
      let isWrite :=
        match type with MultTypeRegisterWrite => true | _ => false end in
      let lane := regLane config in
      let vc   := regVc config in
      let b := Buf.store txData_ 0 context in
      let b := Buf.store b 1 (if isWrite then 0x40000000 else 0x00000000) in
      let b := Buf.store b 1
                 (Z.lor (Buf.load b 1)
                        (Z.land (Word32.shr (address reg) 2) 0x3FFFFFFF)) in
      if isWrite then
        let b := Buf.memcpy b 2 (data reg) (Word32.mul (size reg) 4) in
        let b := Buf.store b (Word32.add (size reg) 2) 0 in
        Some (mkSendArgs b (Word32.add (size reg) 3) lane vc)
      else
        let b := Buf.store b 2 (Word32.sub (size reg) 1) in
        let b := Buf.store b 3 0 in
        Some (mkSendArgs b 4 lane vc)
  | MultTypeCommand, PCmd opCode =>
      let b := Buf.store txData_ 0 0 in
      let b := Buf.store b 1 (Z.land opCode 0xFF) in
      let b := Buf.store b 2 0 in
      let b := Buf.store b 3 0 in
      Some (mkSendArgs b 4 (cmdLane config) (cmdVc config))
  | MultTypeData, PRaw words =>
      Some (mkSendArgs words (size_ / 4) (dataLane config) (dataVc config))
  | _, _ => None
  end.

(** [while (ret < 0) ret = pgpcard_send(...)]: each unit of fuel allows
    one more call. *)
Fixpoint retry (fuel : nat) (lk : Link) (a : SendArgs) (ret : Z)
  : option (Z * Link) :=
  if ret <? 0 then
    match fuel with
    | O => None
    | S fuel' =>
        let '(ret', lk') := pgpcard_send lk a in retry fuel' lk' a ret'
    end
  else Some (ret, lk).

(** The send of [transmit] with its retry loop and byte-count result. *)
Definition send_all (fuel : nat) (lk : Link) (a : SendArgs)
  : option (Z * Link) :=
  let '(ret, lk1) := pgpcard_send lk a in
  match retry fuel lk1 a ret with
  | Some (ret, lk2) =>
      Some ((if ret >? 0 then Word32.smul ret 4 else ret), lk2)
  | None => None
  end.

Definition transmit (fuel : nat) (lk : Link) (txData_ : list Z)
           (type : MultType) (ptr : Payload) (size_ context config : Z)
  : option (Z * Link) :=
  match setup txData_ type ptr size_ context config with
  | Some a => send_all fuel lk a
  | None => None
  end.

(** What [receive] leaves in its out-parameters and in [rxRegister_];
    an out-parameter that was not assigned is [None]. *)
Inductive RxPtr : Type :=
| PtrData (rxData : list Z)
| PtrRegister.

Record RxOut : Type := mkRxOut {
  o_ret     : Z;
  o_type    : option MultType;
  o_ptr     : option RxPtr;
  o_context : option Z;
  o_reg     : Register
}.

Section Receive.

(** [MultDest::isDataSource], defined by the base class. *)
Variable isDataSource : Z -> bool.

Definition receive (rxRegister_ : Register) (rx : RxResult) : RxOut :=
  let ret    := rx_ret rx in
  let rxData := rx_buf rx in
  if ret =? 0 then mkRxOut 0 None None None rxRegister_
  else if (ret <? 4) || Word32.nz (rx_eofe rx) || Word32.nz (rx_fifoErr rx)
                     || Word32.nz (rx_lengthErr rx)
  then mkRxOut (-1) None None None rxRegister_
  else
    let dataSource := dataSourceOf (rx_lane rx) (rx_vc rx) in
    if isDataSource dataSource then
      mkRxOut (Word32.smul ret 4) (Some MultTypeData)
              (Some (PtrData rxData)) (Some 0) rxRegister_
    else
      let context := Buf.load rxData 0 in
      let r := setAddress rxRegister_ (Word32.shl (Buf.load rxData 1) 2) in
      let type :=
        if Word32.nz (Z.land (Buf.load rxData 1) 0x40000000)
        then MultTypeRegisterWrite else MultTypeRegisterRead in
      if ret - 3 >? Word32.signed (size r) then
        mkRxOut (-1) (Some type) (Some PtrRegister) (Some context) r
      else
        let r := setData r
                   (Buf.memcpy (data r) 0 (drop 2 rxData)
                               (Word32.smul (ret - 3) 4)) in
        let r := setStatus r (Buf.load rxData (ret - 1)) in
        mkRxOut (Word32.smul ret 4) (Some type) (Some PtrRegister)
                (Some context) r.

End Receive.

End MultDestPgpMask.

(** ** Asynchronous variant: [PgpCardG3Link] *)

Module PgpCardG3Link.

(** The members of the link object that the two threads and the callers
    share ([CommLink] declares them).  Counters are [uint32_t].  The
    wake-up calls ([mainThreadWakeup], [dataThreadWakeup]) and the idle
    wait signal other threads and change none of these members. *)
Record State : Type := mkState {
  dataSource_ : Z;   (* data-source mask: vc bits 3:0, lane bits 11:4 *)
  regBuff_ : list Z;   (* last register frame built by the transmit thread *)
  regReqEntry_ : Register;   (* the register of the outstanding request *)
  regReqWrite_ : bool;
  regReqCnt_ : Z;
  regRespCnt_ : Z;
  cmdReqEntry_ : Z;   (* opCode of the posted command *)
  cmdReqCnt_ : Z;
  cmdRespCnt_ : Z;
  runReqEntry_ : Z;   (* opCode of the posted run command *)
  runReqCnt_ : Z;
  dataReqEntry_ : list Z;
  dataReqLength_ : Z;
  dataReqAddr_ : Z;
  dataReqCnt_ : Z;
  dataRespCnt_ : Z;
  errorCount_ : Z;
  unexpCount_ : Z;
  dataQueue_ : list (list Z)   (* received data frames, oldest first *)
}.

(** Field assignments. *)
Definition set_regBuff_ (s : State) (v : list Z) : State :=
  {| dataSource_ := dataSource_ s; regBuff_ := v; regReqEntry_ :=
  regReqEntry_ s; regReqWrite_ := regReqWrite_ s; regReqCnt_ := regReqCnt_
  s; regRespCnt_ := regRespCnt_ s; cmdReqEntry_ := cmdReqEntry_ s;
  cmdReqCnt_ := cmdReqCnt_ s; cmdRespCnt_ := cmdRespCnt_ s; runReqEntry_
  := runReqEntry_ s; runReqCnt_ := runReqCnt_ s; dataReqEntry_ :=
  dataReqEntry_ s; dataReqLength_ := dataReqLength_ s; dataReqAddr_ :=
  dataReqAddr_ s; dataReqCnt_ := dataReqCnt_ s; dataRespCnt_ :=
  dataRespCnt_ s; errorCount_ := errorCount_ s; unexpCount_ := unexpCount_
  s; dataQueue_ := dataQueue_ s |}.
Definition set_regReqEntry_ (s : State) (v : Register) : State :=
  {| dataSource_ := dataSource_ s; regBuff_ := regBuff_ s; regReqEntry_ :=
  v; regReqWrite_ := regReqWrite_ s; regReqCnt_ := regReqCnt_ s;
  regRespCnt_ := regRespCnt_ s; cmdReqEntry_ := cmdReqEntry_ s; cmdReqCnt_
  := cmdReqCnt_ s; cmdRespCnt_ := cmdRespCnt_ s; runReqEntry_ :=
  runReqEntry_ s; runReqCnt_ := runReqCnt_ s; dataReqEntry_ :=
  dataReqEntry_ s; dataReqLength_ := dataReqLength_ s; dataReqAddr_ :=
  dataReqAddr_ s; dataReqCnt_ := dataReqCnt_ s; dataRespCnt_ :=
  dataRespCnt_ s; errorCount_ := errorCount_ s; unexpCount_ := unexpCount_
  s; dataQueue_ := dataQueue_ s |}.
Definition set_regRespCnt_ (s : State) (v : Z) : State :=
  {| dataSource_ := dataSource_ s; regBuff_ := regBuff_ s; regReqEntry_ :=
  regReqEntry_ s; regReqWrite_ := regReqWrite_ s; regReqCnt_ := regReqCnt_
  s; regRespCnt_ := v; cmdReqEntry_ := cmdReqEntry_ s; cmdReqCnt_ :=
  cmdReqCnt_ s; cmdRespCnt_ := cmdRespCnt_ s; runReqEntry_ := runReqEntry_
  s; runReqCnt_ := runReqCnt_ s; dataReqEntry_ := dataReqEntry_ s;
  dataReqLength_ := dataReqLength_ s; dataReqAddr_ := dataReqAddr_ s;
  dataReqCnt_ := dataReqCnt_ s; dataRespCnt_ := dataRespCnt_ s;
  errorCount_ := errorCount_ s; unexpCount_ := unexpCount_ s; dataQueue_
  := dataQueue_ s |}.
Definition set_cmdRespCnt_ (s : State) (v : Z) : State :=
  {| dataSource_ := dataSource_ s; regBuff_ := regBuff_ s; regReqEntry_ :=
  regReqEntry_ s; regReqWrite_ := regReqWrite_ s; regReqCnt_ := regReqCnt_
  s; regRespCnt_ := regRespCnt_ s; cmdReqEntry_ := cmdReqEntry_ s;
  cmdReqCnt_ := cmdReqCnt_ s; cmdRespCnt_ := v; runReqEntry_ :=
  runReqEntry_ s; runReqCnt_ := runReqCnt_ s; dataReqEntry_ :=
  dataReqEntry_ s; dataReqLength_ := dataReqLength_ s; dataReqAddr_ :=
  dataReqAddr_ s; dataReqCnt_ := dataReqCnt_ s; dataRespCnt_ :=
  dataRespCnt_ s; errorCount_ := errorCount_ s; unexpCount_ := unexpCount_
  s; dataQueue_ := dataQueue_ s |}.
Definition set_dataRespCnt_ (s : State) (v : Z) : State :=
  {| dataSource_ := dataSource_ s; regBuff_ := regBuff_ s; regReqEntry_ :=
  regReqEntry_ s; regReqWrite_ := regReqWrite_ s; regReqCnt_ := regReqCnt_
  s; regRespCnt_ := regRespCnt_ s; cmdReqEntry_ := cmdReqEntry_ s;
  cmdReqCnt_ := cmdReqCnt_ s; cmdRespCnt_ := cmdRespCnt_ s; runReqEntry_
  := runReqEntry_ s; runReqCnt_ := runReqCnt_ s; dataReqEntry_ :=
  dataReqEntry_ s; dataReqLength_ := dataReqLength_ s; dataReqAddr_ :=
  dataReqAddr_ s; dataReqCnt_ := dataReqCnt_ s; dataRespCnt_ := v;
  errorCount_ := errorCount_ s; unexpCount_ := unexpCount_ s; dataQueue_
  := dataQueue_ s |}.
Definition set_errorCount_ (s : State) (v : Z) : State :=
  {| dataSource_ := dataSource_ s; regBuff_ := regBuff_ s; regReqEntry_ :=
  regReqEntry_ s; regReqWrite_ := regReqWrite_ s; regReqCnt_ := regReqCnt_
  s; regRespCnt_ := regRespCnt_ s; cmdReqEntry_ := cmdReqEntry_ s;
  cmdReqCnt_ := cmdReqCnt_ s; cmdRespCnt_ := cmdRespCnt_ s; runReqEntry_
  := runReqEntry_ s; runReqCnt_ := runReqCnt_ s; dataReqEntry_ :=
  dataReqEntry_ s; dataReqLength_ := dataReqLength_ s; dataReqAddr_ :=
  dataReqAddr_ s; dataReqCnt_ := dataReqCnt_ s; dataRespCnt_ :=
  dataRespCnt_ s; errorCount_ := v; unexpCount_ := unexpCount_ s;
  dataQueue_ := dataQueue_ s |}.
Definition set_unexpCount_ (s : State) (v : Z) : State :=
  {| dataSource_ := dataSource_ s; regBuff_ := regBuff_ s; regReqEntry_ :=
  regReqEntry_ s; regReqWrite_ := regReqWrite_ s; regReqCnt_ := regReqCnt_
  s; regRespCnt_ := regRespCnt_ s; cmdReqEntry_ := cmdReqEntry_ s;
  cmdReqCnt_ := cmdReqCnt_ s; cmdRespCnt_ := cmdRespCnt_ s; runReqEntry_
  := runReqEntry_ s; runReqCnt_ := runReqCnt_ s; dataReqEntry_ :=
  dataReqEntry_ s; dataReqLength_ := dataReqLength_ s; dataReqAddr_ :=
  dataReqAddr_ s; dataReqCnt_ := dataReqCnt_ s; dataRespCnt_ :=
  dataRespCnt_ s; errorCount_ := errorCount_ s; unexpCount_ := v;
  dataQueue_ := dataQueue_ s |}.
Definition set_dataQueue_ (s : State) (v : list (list Z)) : State :=
  {| dataSource_ := dataSource_ s; regBuff_ := regBuff_ s; regReqEntry_ :=
  regReqEntry_ s; regReqWrite_ := regReqWrite_ s; regReqCnt_ := regReqCnt_
  s; regRespCnt_ := regRespCnt_ s; cmdReqEntry_ := cmdReqEntry_ s;
  cmdReqCnt_ := cmdReqCnt_ s; cmdRespCnt_ := cmdRespCnt_ s; runReqEntry_
  := runReqEntry_ s; runReqCnt_ := runReqCnt_ s; dataReqEntry_ :=
  dataReqEntry_ s; dataReqLength_ := dataReqLength_ s; dataReqAddr_ :=
  dataReqAddr_ s; dataReqCnt_ := dataReqCnt_ s; dataRespCnt_ :=
  dataRespCnt_ s; errorCount_ := errorCount_ s; unexpCount_ := unexpCount_
  s; dataQueue_ := v |}.

(** *** Receive thread: one pass of the loop of [rxHandler] on one
    answer of [pgpcard_recv] *)

Definition vcMaskRx   (vc : Z)   : Z := Word32.shl 0x1 vc.
Definition laneMaskRx (lane : Z) : Z := Word32.shl 0x1 lane.
Definition vcMask   (s : State) : Z := Z.land (dataSource_ s) 0xF.
Definition laneMask (s : State) : Z :=
  Z.land (Word32.shr (dataSource_ s) 4) 0xFF.

(** The test that sends a frame to the data queue. *)
Definition isData (s : State) (lane vc : Z) : bool :=
  Word32.nz (Z.land (vcMaskRx vc) (vcMask s))
  && Word32.nz (Z.land (laneMaskRx lane) (laneMask s)).

(** The test of the correlator. *)
Definition matches (s : State) (rxBuff : list Z) (ret : Z) : bool :=
  Buf.eq8 rxBuff (regBuff_ s)
  && (Word32.wrap (ret - 3) =? size (regReqEntry_ s)).

(** The [else] branch of the classifier: register response or
    unexpected frame. *)
Definition correlate (s : State) (rxBuff : list Z) (ret : Z) : State :=
  if matches s rxBuff ret then
    let e := regReqEntry_ s in
    let e :=
      if negb (regReqWrite_ s) then
        if Buf.load rxBuff (ret - 1) =? 0
        then setData e (Buf.memcpy (data e) 0 (drop 2 rxBuff)
                                   (Word32.mul (size e) 4))
        else setData e (Buf.memset (data e) 0xFF (Word32.mul (size e) 4))
      else e in
    let e := setStatus e (Buf.load rxBuff (ret - 1)) in
    let s := set_regReqEntry_ s e in
    set_regRespCnt_ s (Word32.incr (regRespCnt_ s))
  else
    set_unexpCount_ s (Word32.incr (unexpCount_ s)).

Definition rxStep (s : State) (rx : RxResult) : State :=
  let ret    := rx_ret rx in
  let rxBuff := rx_buf rx in
  if ret <=? 0 then s
  else if (ret <? 4) || Word32.nz (rx_eofe rx) || Word32.nz (rx_fifoErr rx)
                     || Word32.nz (rx_lengthErr rx)
  then set_errorCount_ s (Word32.incr (errorCount_ s))
  else if isData s (rx_lane rx) (rx_vc rx)
  then set_dataQueue_ s (dataQueue_ s ++ [take (Z.to_nat ret) rxBuff])
  else correlate s rxBuff ret.

(** *** Transmit thread: one pass of the loop of [ioHandler] *)

(** The thread's own record of the request counters it has served. *)
Record Last : Type := mkLast {
  lastReqCnt  : Z;
  lastCmdCnt  : Z;
  lastRunCnt  : Z;
  lastDataCnt : Z
}.

(** The setup before the loop. *)
Definition ioInit (s : State) : Last :=
  mkLast (regReqCnt_ s) (cmdReqCnt_ s) (runReqCnt_ s) (dataReqCnt_ s).

(** [while (bits >>= 1) n++]; a 32-bit value is zero after 32 shifts. *)
Fixpoint bitscan (fuel : nat) (bits n : Z) : Z :=
  match fuel with
  | O => n
  | S fuel' =>
      let bits := Word32.shr bits 1 in
      if bits =? 0 then n else bitscan fuel' bits (Word32.incr n)
  end.

(** The 4-word frame of a run command or a command. *)
Definition cmdFrame (opCode : Z) : list Z :=
  [0; Z.land opCode 0xFF; 0; 0].

(** The register frame written into [regBuff_]. *)
Definition regSetup (s : State) : list Z :=
  let e := regReqEntry_ s in
  let b := Buf.store (regBuff_ s) 0 0 in
  let b := Buf.store b 1
             (if regReqWrite_ s then 0x40000000 else 0x00000000) in
  let b := Buf.store b 1
             (Z.lor (Buf.load b 1) (Z.land (address e) 0x00FFFFFF)) in
  if regReqWrite_ s then
    let b := Buf.memcpy b 2 (data e) (Word32.mul (size e) 4) in
    Buf.store b (Word32.add (size e) 2) 0
  else
    let b := Buf.store b 2 (Word32.sub (size e) 1) in
    Buf.store b 3 0.

Definition regSendArgs (s : State) (b : list Z) : SendArgs :=
  let e := regReqEntry_ s in
  mkSendArgs b
    (if regReqWrite_ s then Word32.add (size e) 3 else 4)
    (Z.land (Word32.shr (address e) 28) 0xF)
    (Z.land (Word32.shr (address e) 24) 0xF).

Definition ioCycle (l : Last) (s : State) (lk : Link)
  : Last * State * Link :=
  if negb (lastRunCnt l =? runReqCnt_ s) then
    let op := runReqEntry_ s in
    let a := mkSendArgs (cmdFrame op) 4
               (Z.land (Word32.shr op 12) 0xF)
               (Z.land (Word32.shr op 8) 0xF) in
    let '(_, lk) := pgpcard_send lk a in
    (mkLast (lastReqCnt l) (lastCmdCnt l) (runReqCnt_ s) (lastDataCnt l),
     s, lk)
  else if negb (lastReqCnt l =? regReqCnt_ s) then
    let b := regSetup s in
    let s' := set_regBuff_ s b in
    let '(_, lk) := pgpcard_send lk (regSendArgs s b) in
    (mkLast (regReqCnt_ s) (lastCmdCnt l) (lastRunCnt l) (lastDataCnt l),
     s', lk)
  else if negb (lastCmdCnt l =? cmdReqCnt_ s) then
    let op := cmdReqEntry_ s in
    let a := mkSendArgs (cmdFrame op) 4
               (Z.land (Word32.shr op 12) 0xF)
               (Z.land (Word32.shr op 8) 0xF) in
    let '(_, lk) := pgpcard_send lk a in
    (mkLast (lastReqCnt l) (cmdReqCnt_ s) (lastRunCnt l) (lastDataCnt l),
     set_cmdRespCnt_ s (Word32.incr (cmdRespCnt_ s)), lk)
  else if negb (lastDataCnt l =? dataReqCnt_ s) then
    let dataLaneBits := Z.land (Word32.shr (dataReqAddr_ s) 4) 0xF in
    let dataVcBits   := Z.land (dataReqAddr_ s) 0xF in
    let dataLane := bitscan 32 dataLaneBits 0 in
    let dataVc   := bitscan 32 dataVcBits 0 in
    let a := mkSendArgs (dataReqEntry_ s) (dataReqLength_ s)
                        dataLane dataVc in
    let '(_, lk) := pgpcard_send lk a in
    (mkLast (lastReqCnt l) (lastCmdCnt l) (lastRunCnt l) (dataReqCnt_ s),
     set_dataRespCnt_ s (Word32.incr (dataRespCnt_ s)), lk)
  else (l, s, lk).

(** *** The loops over several passes *)

(** The receive loop on successive answers of [pgpcard_recv]. *)
Definition rxRun (s : State) (rxs : list RxResult) : State :=
  fold_left rxStep rxs s.

(** [n] passes of the transmit loop, no other thread writing between
    them. *)
Fixpoint ioRun (n : nat) (l : Last) (s : State) (lk : Link)
  : Last * State * Link :=
  match n with
  | O => (l, s, lk)
  | S n' => let '(l', s', lk') := ioCycle l s lk in ioRun n' l' s' lk'
  end.

(** *** Opening and closing the link

    The device is reached through [::open], [mmap] and [::close]; the
    base class starts and stops the threads in [CommLink::open] and
    [CommLink::close].  The calls made are logged in order; what
    [::open] and [mmap] answer is given to [open].  The device name,
    kept for the messages only, is left out. *)

Inductive Call : Type :=
| SysOpen
| SysMmap (fd : Z)
| SysClose (fd : Z)
| CommLinkOpen
| CommLinkClose.

Record Dev : Type := mkDev {
  fd_  : Z;
  log_ : list Call
}.

(** The constructor. *)
Definition newDev : Dev := mkDev (-1) [].

(** [open]: the second component tells whether it threw. *)
Definition open (d : Dev) (fdRet : Z) (mapFailed : bool) : Dev * bool :=
  let d := mkDev fdRet (log_ d ++ [SysOpen]) in
  if fd_ d <? 0 then (d, true)
  else
    let d := mkDev (fd_ d) (log_ d ++ [SysMmap (fd_ d)]) in
    if mapFailed then (d, true)
    else (mkDev (fd_ d) (log_ d ++ [CommLinkOpen]), false).

Definition close (d : Dev) : Dev :=
  let d :=
    if 0 <=? fd_ d
    then mkDev (fd_ d) (log_ d ++ [CommLinkClose; SysClose (fd_ d)])
    else d in
  mkDev (-1) (log_ d).

(** *** The event-receiver registers

    [reg_] points to the mapped [struct PgpCardReg]; it is read back as
    memory, each array a map from index to 32-bit word. *)

Record PgpCardReg : Type := mkPgpCardReg {
  evrCardStat : Z -> Z;
  pgpSpare1   : Z -> Z;
  runCode     : Z -> Z;
  acceptCode  : Z -> Z;
  runDelay    : Z -> Z;
  acceptDelay : Z -> Z
}.

(** [a[i] = v]. *)
Definition upd (a : Z -> Z) (i v : Z) : Z -> Z :=
  fun j => if j =? i then v else a j.

Definition set_evrCardStat (r : PgpCardReg) (a : Z -> Z) : PgpCardReg :=
  mkPgpCardReg a (pgpSpare1 r) (runCode r) (acceptCode r) (runDelay r)
               (acceptDelay r).

Definition getEvrStatus (r : PgpCardReg) : bool :=
  Z.land (Word32.shr (evrCardStat r 0) 4) 0x1 =? 1.

Definition getEvrErrors (r : PgpCardReg) : Z := evrCardStat r 3.

Definition getEvrCount (r : PgpCardReg) (idx : Z) : Z := pgpSpare1 r idx.

Definition getEvrEnable (r : PgpCardReg) : bool :=
  Z.land (evrCardStat r 1) 0x1 =? 1.

Definition getEvrStatRaw (r : PgpCardReg) : Z := evrCardStat r 1.

Definition setEvrEnable (r : PgpCardReg) (enable : bool) : PgpCardReg :=
  if enable
  then set_evrCardStat r
         (upd (evrCardStat r) 1 (Z.lor (evrCardStat r 1) 0x1))
  else set_evrCardStat r
         (upd (evrCardStat r) 1 (Z.land (evrCardStat r 1) 0xFFFFFFFE)).

Definition getEvrEnableLane (r : PgpCardReg) : Z :=
  Z.land (Word32.shr (evrCardStat r 1) 16) 0xFF.


Definition getEvrLaneRunOpCode (r : PgpCardReg) (lane : Z) : Z :=
  runCode r lane.

Definition setEvrLaneRunOpCode (r : PgpCardReg) (lane code : Z)
  : PgpCardReg :=
  mkPgpCardReg (evrCardStat r) (pgpSpare1 r) (upd (runCode r) lane code)
               (acceptCode r) (runDelay r) (acceptDelay r).

Definition getEvrLaneAcceptOpCode (r : PgpCardReg) (lane : Z) : Z :=
  acceptCode r lane.

Definition setEvrLaneAcceptOpCode (r : PgpCardReg) (lane code : Z)
  : PgpCardReg :=
  mkPgpCardReg (evrCardStat r) (pgpSpare1 r) (runCode r)
               (upd (acceptCode r) lane code) (runDelay r) (acceptDelay r).

Definition getEvrLaneRunDelay (r : PgpCardReg) (lane : Z) : Z :=
  runDelay r lane.

Definition setEvrLaneRunDelay (r : PgpCardReg) (lane delay : Z)
  : PgpCardReg :=
  mkPgpCardReg (evrCardStat r) (pgpSpare1 r) (runCode r) (acceptCode r)
               (upd (runDelay r) lane delay) (acceptDelay r).

Definition getEvrLaneAcceptDelay (r : PgpCardReg) (lane : Z) : Z :=
  acceptDelay r lane.

Definition setEvrLaneAcceptDelay (r : PgpCardReg) (lane delay : Z)
  : PgpCardReg :=
  mkPgpCardReg (evrCardStat r) (pgpSpare1 r) (runCode r) (acceptCode r)
               (runDelay r) (upd (acceptDelay r) lane delay).

End PgpCardG3Link.

(** * Vocabulary of the statements *)

(** A lane or vc number of a configuration word. *)
Definition nibble (v : Z) : Prop := 0 <= v <= 15.

(** A buffer with room for the frame of a register of [sz] words (and for
    the 4 words of a read), whose byte size fits a 32-bit count. *)
Definition roomy (buf : list Z) (sz : Z) : Prop :=
  4 <= Z.of_nat (length buf)
  /\ sz + 3 <= Z.of_nat (length buf)
  /\ Z.of_nat (length buf) <= 2 ^ 30.

(** The register field of a Scheme A header: the address without its two
    low bits, on 30 bits. *)
Definition addrA (reg : Register) : Z :=
  Z.land (Z.shiftr (address reg) 2) 0x3FFFFFFF.

(** The register field of a Scheme B header: the low 24 address bits. *)
Definition addrB (reg : Register) : Z :=
  Z.land (address reg) 0x00FFFFFF.

(** A frame that gets as far as the classifier. *)
Definition clean (rx : RxResult) : Prop :=
  4 <= rx_ret rx /\ rx_eofe rx = 0 /\ rx_fifoErr rx = 0 /\ rx_lengthErr rx = 0.

(** What [pgpcard_recv] leaves: the [rx_ret] words are in the buffer, and
    the buffer's byte size fits a 32-bit count. *)
Definition received (rx : RxResult) : Prop :=
  rx_ret rx <= Z.of_nat (length (rx_buf rx))
  /\ Z.of_nat (length (rx_buf rx)) <= 2 ^ 30.

(** The header of the frame is the header in [regBuff_]. *)
Definition same_header (s : PgpCardG3Link.State) (rx : RxResult) : Prop :=
  Buf.load (rx_buf rx) 0 = Buf.load (PgpCardG3Link.regBuff_ s) 0
  /\ Buf.load (rx_buf rx) 1 = Buf.load (PgpCardG3Link.regBuff_ s) 1.

(** The four transaction classes, in the order [ioHandler] tests them. *)
Inductive Class : Type := Run | Reg | Cmd | Dat.

Definition Class_eqb (a b : Class) : bool :=
  match a, b with
  | Run, Run | Reg, Reg | Cmd, Cmd | Dat, Dat => true
  | _, _ => false
  end.

(** Priority rank, 0 first. *)
Definition rank (c : Class) : nat :=
  match c with Run => 0 | Reg => 1 | Cmd => 2 | Dat => 3 end.

Definition lastOf (c : Class) (l : PgpCardG3Link.Last) : Z :=
  match c with
  | Run => PgpCardG3Link.lastRunCnt l
  | Reg => PgpCardG3Link.lastReqCnt l
  | Cmd => PgpCardG3Link.lastCmdCnt l
  | Dat => PgpCardG3Link.lastDataCnt l
  end.

Definition reqOf (c : Class) (s : PgpCardG3Link.State) : Z :=
  match c with
  | Run => PgpCardG3Link.runReqCnt_ s
  | Reg => PgpCardG3Link.regReqCnt_ s
  | Cmd => PgpCardG3Link.cmdReqCnt_ s
  | Dat => PgpCardG3Link.dataReqCnt_ s
  end.

(** A class is pending when its request counter is not the value last
    served. *)
Definition pending (c : Class) (l : PgpCardG3Link.Last)
           (s : PgpCardG3Link.State) : bool :=
  negb (lastOf c l =? reqOf c s).

(** The pending class of best priority, if any. *)
Definition highest (l : PgpCardG3Link.Last) (s : PgpCardG3Link.State)
  : option Class :=
  if pending Run l s then Some Run
  else if pending Reg l s then Some Reg
  else if pending Cmd l s then Some Cmd
  else if pending Dat l s then Some Dat
  else None.

(** The send arguments [ioHandler] uses for a class. *)
Definition argsOf (c : Class) (s : PgpCardG3Link.State) : SendArgs :=
  match c with
  | Run =>
      let op := PgpCardG3Link.runReqEntry_ s in
      mkSendArgs (PgpCardG3Link.cmdFrame op) 4
                 (Z.land (Word32.shr op 12) 0xF)
                 (Z.land (Word32.shr op 8) 0xF)
  | Reg => PgpCardG3Link.regSendArgs s (PgpCardG3Link.regSetup s)
  | Cmd =>
      let op := PgpCardG3Link.cmdReqEntry_ s in
      mkSendArgs (PgpCardG3Link.cmdFrame op) 4
                 (Z.land (Word32.shr op 12) 0xF)
                 (Z.land (Word32.shr op 8) 0xF)
  | Dat =>
      mkSendArgs (PgpCardG3Link.dataReqEntry_ s)
        (PgpCardG3Link.dataReqLength_ s)
        (PgpCardG3Link.bitscan 32
           (Z.land (Word32.shr (PgpCardG3Link.dataReqAddr_ s) 4) 0xF) 0)
        (PgpCardG3Link.bitscan 32
           (Z.land (PgpCardG3Link.dataReqAddr_ s) 0xF) 0)
  end.

(** The link after [k] more calls with the arguments [a]. *)
Definition after (lk : Link) (a : SendArgs) (k : nat) : Link :=
  mkLink (sendRet lk) (calls lk + k) (sent lk ++ replicate k a).

(** The frame is not from a data source. *)
Definition control (isDataSource : Z -> bool) (rx : RxResult) : Prop :=
  isDataSource (MultDestPgpMask.dataSourceOf (rx_lane rx) (rx_vc rx)) = false.

(** What [pgpcard_recv] leaves, with a byte count that fits [int32_t]. *)
Definition received31 (rx : RxResult) : Prop :=
  rx_ret rx <= Z.of_nat (length (rx_buf rx))
  /\ Z.of_nat (length (rx_buf rx)) < 2 ^ 29.

(** The answers of [pgpcard_recv] by what the receive loop does with
    them: counted as an error, queued as data, taken as the awaited
    register response, counted as unexpected. *)
Definition rxFlagged (rx : RxResult) : bool :=
  (rx_ret rx <? 4) || Word32.nz (rx_eofe rx) || Word32.nz (rx_fifoErr rx)
  || Word32.nz (rx_lengthErr rx).

Definition rxBad (rx : RxResult) : bool :=
  (0 <? rx_ret rx) && rxFlagged rx.

Definition rxQueued (s : PgpCardG3Link.State) (rx : RxResult) : bool :=
  (0 <? rx_ret rx) && negb (rxFlagged rx)
  && PgpCardG3Link.isData s (rx_lane rx) (rx_vc rx).

Definition rxAwaited (s : PgpCardG3Link.State) (rx : RxResult) : bool :=
  (0 <? rx_ret rx) && negb (rxFlagged rx)
  && negb (PgpCardG3Link.isData s (rx_lane rx) (rx_vc rx))
  && PgpCardG3Link.matches s (rx_buf rx) (rx_ret rx).

Definition rxStray (s : PgpCardG3Link.State) (rx : RxResult) : bool :=
  (0 <? rx_ret rx) && negb (rxFlagged rx)
  && negb (PgpCardG3Link.isData s (rx_lane rx) (rx_vc rx))
  && negb (PgpCardG3Link.matches s (rx_buf rx) (rx_ret rx)).

(** How many elements of a list pass a test. *)
Definition count {A : Type} (f : A -> bool) (l : list A) : Z :=
  Z.of_nat (length (List.filter f l)).

(** The words a queued frame leaves in the data queue. *)
Definition queuedWords (rx : RxResult) : list Z :=
  take (Z.to_nat (rx_ret rx)) (rx_buf rx).

(** A value of a [uint32_t]. *)
Definition u32 (x : Z) : Prop := 0 <= x < 2 ^ 32.

(** What the receive loop's decisions depend on in the shared state. *)
Definition rxView (s s' : PgpCardG3Link.State) : Prop :=
  PgpCardG3Link.dataSource_ s' = PgpCardG3Link.dataSource_ s
  /\ PgpCardG3Link.regBuff_ s' = PgpCardG3Link.regBuff_ s
  /\ size (PgpCardG3Link.regReqEntry_ s') = size (PgpCardG3Link.regReqEntry_ s).

(** The members a pass of the receive loop has no assignment to (of the
    register, its address and size), and those a pass of the transmit
    loop has none to. *)
Definition keptByRx (s : PgpCardG3Link.State) :=
  (PgpCardG3Link.dataSource_ s, PgpCardG3Link.regBuff_ s,
   PgpCardG3Link.regReqWrite_ s, PgpCardG3Link.regReqCnt_ s,
   (PgpCardG3Link.cmdReqEntry_ s, PgpCardG3Link.cmdReqCnt_ s,
    PgpCardG3Link.cmdRespCnt_ s),
   (PgpCardG3Link.runReqEntry_ s, PgpCardG3Link.runReqCnt_ s),
   (PgpCardG3Link.dataReqEntry_ s, PgpCardG3Link.dataReqLength_ s,
    PgpCardG3Link.dataReqAddr_ s, PgpCardG3Link.dataReqCnt_ s,
    PgpCardG3Link.dataRespCnt_ s),
   (address (PgpCardG3Link.regReqEntry_ s),
    size (PgpCardG3Link.regReqEntry_ s))).

Definition keptByIo (s : PgpCardG3Link.State) :=
  (PgpCardG3Link.dataSource_ s, PgpCardG3Link.regReqEntry_ s,
   PgpCardG3Link.regReqWrite_ s,
   (PgpCardG3Link.regReqCnt_ s, PgpCardG3Link.regRespCnt_ s),
   (PgpCardG3Link.cmdReqEntry_ s, PgpCardG3Link.cmdReqCnt_ s),
   (PgpCardG3Link.runReqEntry_ s, PgpCardG3Link.runReqCnt_ s),
   (PgpCardG3Link.dataReqEntry_ s, PgpCardG3Link.dataReqLength_ s,
    PgpCardG3Link.dataReqAddr_ s, PgpCardG3Link.dataReqCnt_ s),
   (PgpCardG3Link.errorCount_ s, PgpCardG3Link.unexpCount_ s,
    PgpCardG3Link.dataQueue_ s)).

(** The classes in the order the transmit loop tests them. *)
Definition classes : list Class := [Run; Reg; Cmd; Dat].

(** The pending classes, best priority first. *)
Definition pendingList (l : PgpCardG3Link.Last) (s : PgpCardG3Link.State)
  : list Class :=
  List.filter (fun c => pending c l s) classes.

(** Sample values: a register of two words at 0x00001000, a link state
    with one register read posted and the data mask of lane 2, vc 0, a
    transmit thread that has served nothing yet, a driver that refuses
    every send and one that accepts the third. *)
Definition sample_reg : Register :=
  mkRegister 0x00001000 [0xAAAA; 0xBBBB] 2 0.

Definition sample_state : PgpCardG3Link.State :=
  {| PgpCardG3Link.dataSource_ := 0x41;
     PgpCardG3Link.regBuff_ := replicate 8 0;
     PgpCardG3Link.regReqEntry_ := sample_reg;
     PgpCardG3Link.regReqWrite_ := false;
     PgpCardG3Link.regReqCnt_ := 1;
     PgpCardG3Link.regRespCnt_ := 0;
     PgpCardG3Link.cmdReqEntry_ := 0;
     PgpCardG3Link.cmdReqCnt_ := 0;
     PgpCardG3Link.cmdRespCnt_ := 0;
     PgpCardG3Link.runReqEntry_ := 0;
     PgpCardG3Link.runReqCnt_ := 0;
     PgpCardG3Link.dataReqEntry_ := [];
     PgpCardG3Link.dataReqLength_ := 0;
     PgpCardG3Link.dataReqAddr_ := 0;
     PgpCardG3Link.dataReqCnt_ := 0;
     PgpCardG3Link.dataRespCnt_ := 0;
     PgpCardG3Link.errorCount_ := 0;
     PgpCardG3Link.unexpCount_ := 0;
     PgpCardG3Link.dataQueue_ := [] |}.

Definition sample_last : PgpCardG3Link.Last :=
  PgpCardG3Link.mkLast 0 0 0 0.

Definition failing_link : Link := mkLink (fun _ => -1) 0 [].

Definition flaky_link : Link :=
  mkLink (fun i => if (i <? 2)%nat then -1 else 5) 0 [].

(** A read response for [sample_state]: header 0, 0 as in its [regBuff_],
    two payload words, status 0, on lane 0 and vc 1. *)
Definition sample_response : RxResult :=
  mkRxResult 5 [0; 0; 0x11; 0x22; 0] 0 1 0 0 0.

(** A control frame with another header. *)
Definition sample_stray : RxResult :=
  mkRxResult 5 [0; 0x99; 0x11; 0x22; 0] 0 1 0 0 0.

(** A frame from the data source. *)
Definition sample_data : RxResult :=
  mkRxResult 4 [1; 2; 3; 4] 2 0 0 0 0.

(** A write acknowledgment: bit 30 of word1 set. *)
Definition sample_ack : RxResult :=
  mkRxResult 5 [0; 0x40000010; 0x77; 0x88; 0] 0 1 0 0 0.

(** A frame too short to be one, and the frame [transmit] builds for a
    write of [sample_reg] with context 0x55, as it would come back. *)
Definition sample_short : RxResult :=
  mkRxResult 2 [1; 2] 0 1 0 0 0.

Definition sample_echo : RxResult :=
  mkRxResult 5 [0x55; 0x40000400; 0xAAAA; 0xBBBB; 0] 0 1 0 0 0.



(** A run of the receive loop: data, a stray frame, a short frame, the
    awaited response. *)
Definition sample_run : list RxResult :=
  [sample_data; sample_stray; sample_short; sample_response].

(** * Properties *)

(** ** Machine-word and buffer lemmas *)

Section WordFacts.

Import Word32.

Lemma wrap_small x : 0 <= x < 2 ^ 32 -> wrap x = x.
Proof. intros H. unfold wrap, modulus. apply Z.mod_small. exact H. Qed.

Lemma wrap_range x : 0 <= wrap x < 2 ^ 32.
Proof. unfold wrap, modulus. apply Z.mod_pos_bound. lia. Qed.

Lemma signed_small x : 0 <= x < 2 ^ 31 -> signed x = x.
Proof.
  intros H. unfold signed. rewrite wrap_small by lia.
  destruct (Z.ltb_spec x (2 ^ 31)); lia.
Qed.

Lemma smul4_small x : 0 <= x < 2 ^ 29 -> smul x 4 = x * 4.
Proof. intros H. unfold smul. apply signed_small. lia. Qed.

Lemma incr_small x : 0 <= x < 2 ^ 32 - 1 -> incr x = x + 1.
Proof. intros H. unfold incr. apply wrap_small. lia. Qed.

(** A 4-bit field read back from a word laid out as
    [hi | field | lo] with [lo] below bit [p]. *)
Lemma field_extract p hi f lo :
  0 <= p -> 0 <= lo < 2 ^ p -> 0 <= f < 16 -> 0 <= hi ->
  Z.land (shr (hi * 2 ^ (p + 4) + f * 2 ^ p + lo) p) 0xf = f.
Proof.
  intros Hp Hlo Hf Hhi. unfold shr.
  rewrite Z.shiftr_div_pow2 by lia.
  change 0xf with (Z.ones 4). rewrite Z.land_ones by lia.
  rewrite Z.pow_add_r by lia.
  replace (hi * (2 ^ p * 2 ^ 4) + f * 2 ^ p + lo)
    with ((hi * 2 ^ 4 + f) * 2 ^ p + lo) by ring.
  rewrite Z.div_add_l by lia.
  rewrite (Z.div_small lo) by lia.
  rewrite Z.add_0_r, Z.add_comm, Z.mod_add by lia.
  apply Z.mod_small. lia.
Qed.

Lemma field_extract_at p q hi f lo :
  q = p + 4 -> 0 <= p -> 0 <= lo < 2 ^ p -> 0 <= f < 16 -> 0 <= hi ->
  Z.land (shr (hi * 2 ^ q + f * 2 ^ p + lo) p) 0xf = f.
Proof. intros ->. apply field_extract. Qed.

(** Shifting a nibble into place and masking it there loses nothing. *)
Lemma nibble_place v p :
  0 <= v < 16 -> 0 <= p <= 28 ->
  Z.land (shl v p) (Z.shiftl 0xf p) = v * 2 ^ p.
Proof.
  intros Hv Hp. unfold shl.
  assert (Hb : 0 <= v * 2 ^ p < 2 ^ 32).
  { assert (2 ^ p <= 2 ^ 28) by (apply Z.pow_le_mono_r; lia).
    assert (0 < 2 ^ p) by (apply Z.pow_pos_nonneg; lia).
    change (2 ^ 32) with (16 * 2 ^ 28). nia. }
  rewrite Z.shiftl_mul_pow2 by lia.
  rewrite wrap_small by exact Hb.
  rewrite <- Z.shiftl_mul_pow2 by lia.
  rewrite <- Z.shiftl_land.
  change 0xf with (Z.ones 4). rewrite Z.land_ones by lia.
  rewrite Z.mod_small by lia. reflexivity.
Qed.

End WordFacts.

(** ** Routing resolver of the configuration word *)

Section Routing.

Import Word32 MultDestPgpMask.

Lemma regConfig_value lane vc :
  nibble lane -> nibble vc ->
  regConfig lane vc = lane * 2 ^ 12 + vc * 2 ^ 8.
Proof.
  unfold nibble, regConfig. intros Hl Hv.
  change 0x0000F000 with (Z.shiftl 0xf 12).
  change 0x00000F00 with (Z.shiftl 0xf 8).
  rewrite !nibble_place by lia.
  unfold add. apply wrap_small. lia.
Qed.

Lemma cmdConfig_value lane vc :
  nibble lane -> nibble vc ->
  cmdConfig lane vc = lane * 2 ^ 20 + vc * 2 ^ 16.
Proof.
  unfold nibble, cmdConfig. intros Hl Hv.
  change 0x00F00000 with (Z.shiftl 0xf 20).
  change 0x000F0000 with (Z.shiftl 0xf 16).
  rewrite !nibble_place by lia.
  unfold add. apply wrap_small. lia.
Qed.

Lemma dataSourceOf_value lane vc :
  nibble lane -> nibble vc ->
  dataSourceOf lane vc = lane * 2 ^ 28 + vc * 2 ^ 24.
Proof.
  unfold nibble, dataSourceOf. intros Hl Hv.
  change 0xF0000000 with (Z.shiftl 0xf 28).
  change 0x0F000000 with (Z.shiftl 0xf 24).
  rewrite !nibble_place by lia.
  unfold add. apply wrap_small. lia.
Qed.

Lemma linkConfig_value idx rl rv cl cv dl dv :
  0 <= idx <= 255 ->
  nibble rl -> nibble rv -> nibble cl -> nibble cv ->
  nibble dl -> nibble dv ->
  linkConfig idx (rl, rv) (cl, cv) (dl, dv) =
    dl * 2 ^ 28 + dv * 2 ^ 24 + cl * 2 ^ 20 + cv * 2 ^ 16
    + rl * 2 ^ 12 + rv * 2 ^ 8 + idx.
Proof.
  intros Hi Hrl Hrv Hcl Hcv Hdl Hdv. unfold linkConfig. cbn [fst snd].
  rewrite regConfig_value, cmdConfig_value, dataSourceOf_value by assumption.
  change 0xFF with (Z.ones 8). rewrite Z.land_ones by lia.
  rewrite (Z.mod_small idx) by lia.
  unfold nibble in *. unfold add.
  repeat match goal with
         | |- context [wrap ?x] => rewrite (wrap_small x) by lia
         end.
  ring.
Qed.

(** Reads the goal's word as [hi | f | lo] around bit [p]. *)
Local Ltac field hi f lo p :=
  match goal with
  | |- Z.land (shr ?w _) _ = _ =>
      let q := eval cbv in (p + 4) in
      replace w with (hi * 2 ^ q + f * 2 ^ p + lo) by ring;
      apply field_extract_at; lia
  end.

(** C8. Encode-then-decode of a routing nibble pair is the identity:
    for lanes and vcs in 0..15, a configuration word that carries a
    (lane, vc) pair for each of the register, command and data classes
    at the documented nibble positions (register 15:12 and 11:8, command
    23:20 and 19:16, data 31:28 and 27:24) gives back, by the shifts and
    masks of [transmit], exactly the pair packed for each class. *)
Theorem scheme_a_routing_roundtrip idx rl rv cl cv dl dv :
  0 <= idx <= 255 ->
  nibble rl -> nibble rv -> nibble cl -> nibble cv ->
  nibble dl -> nibble dv ->
  let config := linkConfig idx (rl, rv) (cl, cv) (dl, dv) in
  (regLane config, regVc config) = (rl, rv)
  /\ (cmdLane config, cmdVc config) = (cl, cv)
  /\ (dataLane config, dataVc config) = (dl, dv)
  /\ (regLane (regConfig rl rv), regVc (regConfig rl rv)) = (rl, rv)
  /\ (cmdLane (cmdConfig cl cv), cmdVc (cmdConfig cl cv)) = (cl, cv)
  /\ (dataLane (dataSourceOf dl dv), dataVc (dataSourceOf dl dv)) = (dl, dv).
Proof.
  intros Hi Hrl Hrv Hcl Hcv Hdl Hdv config. subst config.
  rewrite linkConfig_value by assumption.
  rewrite regConfig_value, cmdConfig_value, dataSourceOf_value by assumption.
  unfold nibble in *.
  unfold regLane, regVc, cmdLane, cmdVc, dataLane, dataVc.
  repeat split; f_equal.
  - field (dl * 2 ^ 12 + dv * 2 ^ 8 + cl * 2 ^ 4 + cv) rl (rv * 2 ^ 8 + idx) 12.
  - field (dl * 2 ^ 16 + dv * 2 ^ 12 + cl * 2 ^ 8 + cv * 2 ^ 4 + rl) rv idx 8.
  - field (dl * 2 ^ 4 + dv) cl
          (cv * 2 ^ 16 + rl * 2 ^ 12 + rv * 2 ^ 8 + idx) 20.
  - field (dl * 2 ^ 8 + dv * 2 ^ 4 + cl) cv (rl * 2 ^ 12 + rv * 2 ^ 8 + idx) 16.
  - field 0 dl
          (dv * 2 ^ 24 + cl * 2 ^ 20 + cv * 2 ^ 16 + rl * 2 ^ 12
           + rv * 2 ^ 8 + idx) 28.
  - field dl dv (cl * 2 ^ 20 + cv * 2 ^ 16 + rl * 2 ^ 12 + rv * 2 ^ 8 + idx) 24.
  - field 0 rl (rv * 2 ^ 8) 12.
  - field rl rv 0 8.
  - field 0 cl (cv * 2 ^ 16) 20.
  - field cl cv 0 16.
  - field 0 dl (dv * 2 ^ 24) 28.
  - field dl dv 0 24.
Qed.

Lemma scheme_a_routing_roundtrip_witness :
  let config := linkConfig 7 (3, 1) (0, 15) (15, 2) in
  (regLane config, regVc config) = (3, 1)
  /\ (cmdLane config, cmdVc config) = (0, 15)
  /\ (dataLane config, dataVc config) = (15, 2)
  /\ (regLane (regConfig 3 1), regVc (regConfig 3 1)) = (3, 1)
  /\ (cmdLane (cmdConfig 0 15), cmdVc (cmdConfig 0 15)) = (0, 15)
  /\ (dataLane (dataSourceOf 15 2), dataVc (dataSourceOf 15 2)) = (15, 2).
Proof.
  apply (scheme_a_routing_roundtrip 7 3 1 0 15 15 2);
    unfold nibble; lia.
Defined.

End Routing.

(** ** Frame codec for register transactions *)

Section Codec.

Import Word32.

Lemma store_insert buf i v :
  0 <= i -> Buf.store buf i v = <[Z.to_nat i := v]> buf.
Proof.
  intros H. unfold Buf.store. destruct (Z.ltb_spec i 0); [lia | reflexivity].
Qed.

(** The buffer after the steps of a register write, cut at the transmit
    size: two header words, the payload, one zero word. *)
Lemma write_layout (w0 w1 : Z) (d rest : list Z) (n : nat) :
  length d = n -> (n + 1 <= length rest)%nat ->
  take (S (S (S n)))
    (<[S (S n) := 0]>
       (take 2 (w0 :: w1 :: rest) ++ take n d
        ++ drop (2 + n) (w0 :: w1 :: rest)))
  = [w0; w1] ++ d ++ [0].
Proof.
  intros Hd Hb. simpl. do 2 f_equal.
  rewrite (take_ge d) by lia.
  rewrite insert_app_r_alt by lia.
  rewrite take_app_ge by lia.
  f_equal. rewrite Hd, Nat.sub_diag.
  replace (S n - n)%nat with 1%nat by lia.
  destruct (drop n rest) as [|x xs] eqn:E.
  - apply (f_equal length) in E. rewrite length_drop in E. simpl in E. lia.
  - reflexivity.
Qed.

Lemma write_frame_words buf w0 fl aw d sz :
  0 <= sz -> length d = Z.to_nat sz -> roomy buf sz ->
  let b := Buf.store buf 0 w0 in
  let b := Buf.store b 1 fl in
  let b := Buf.store b 1 (Z.lor (Buf.load b 1) aw) in
  let b := Buf.memcpy b 2 d (mul sz 4) in
  let b := Buf.store b (add sz 2) 0 in
  add sz 3 = sz + 3
  /\ take (Z.to_nat (add sz 3)) b = [w0; Z.lor fl aw] ++ d ++ [0].
Proof.
  intros Hsz Hd (H4 & Hroom & Hcap). cbv zeta.
  unfold add, mul. rewrite !wrap_small by lia.
  split; [reflexivity|].
  rewrite !store_insert by lia.
  unfold Buf.memcpy, Buf.load. simpl (1 <? 0). cbv iota.
  rewrite Z.div_mul by lia.
  change (Z.to_nat 0) with 0%nat. change (Z.to_nat 1) with 1%nat.
  change (Z.to_nat 2) with 2%nat.
  replace (Z.to_nat (sz + 3)) with (S (S (S (Z.to_nat sz)))) by lia.
  replace (Z.to_nat (sz + 2)) with (S (S (Z.to_nat sz))) by lia.
  destruct buf as [|t0 [|t1 rest]]; cbn [length] in H4, Hroom; try lia.
  apply (write_layout w0 (Z.lor fl aw) d rest (Z.to_nat sz)); [assumption | lia].
Qed.

Lemma read_frame_words buf w0 fl aw sz :
  roomy buf sz ->
  let b := Buf.store buf 0 w0 in
  let b := Buf.store b 1 fl in
  let b := Buf.store b 1 (Z.lor (Buf.load b 1) aw) in
  let b := Buf.store b 2 (sub sz 1) in
  let b := Buf.store b 3 0 in
  take 4 b = [w0; Z.lor fl aw; sub sz 1; 0].
Proof.
  intros (H4 & _ & _). cbv zeta.
  destruct buf as [|t0 [|t1 [|t2 [|t3 rest]]]]; cbn [length] in H4; try lia.
  reflexivity.
Qed.

Import MultDestPgpMask.

Lemma setup_write_frame txData_ reg size_ context config :
  reg_wf reg -> roomy txData_ (size reg) ->
  exists a,
    setup txData_ MultTypeRegisterWrite (PReg reg) size_ context config
      = Some a
    /\ s_size a = size reg + 3
    /\ frame_of a = [context; Z.lor 0x40000000 (addrA reg)] ++ data reg ++ [0].
Proof.
  intros [Hsz Hd] Hroom.
  destruct (write_frame_words txData_ context 0x40000000 (addrA reg)
              (data reg) (size reg) Hsz Hd Hroom) as [Hs Hf].
  eexists. split; [reflexivity|]. split; [exact Hs|exact Hf].
Qed.

Lemma setup_read_frame txData_ reg size_ context config :
  roomy txData_ (size reg) ->
  exists a,
    setup txData_ MultTypeRegisterRead (PReg reg) size_ context config
      = Some a
    /\ s_size a = 4
    /\ frame_of a = [context; addrA reg; sub (size reg) 1; 0].
Proof.
  intros Hroom.
  pose proof (read_frame_words txData_ context 0 (addrA reg) (size reg) Hroom)
    as Hf.
  eexists. split; [reflexivity|]. split; [reflexivity|exact Hf].
Qed.

Import PgpCardG3Link.

Lemma regSetup_write_frame s :
  regReqWrite_ s = true ->
  reg_wf (regReqEntry_ s) -> roomy (regBuff_ s) (size (regReqEntry_ s)) ->
  let a := regSendArgs s (regSetup s) in
  s_size a = size (regReqEntry_ s) + 3
  /\ frame_of a =
       [0; Z.lor 0x40000000 (addrB (regReqEntry_ s))]
       ++ data (regReqEntry_ s) ++ [0].
Proof.
  intros Hw [Hsz Hd] Hroom.
  destruct (write_frame_words (regBuff_ s) 0 0x40000000
              (addrB (regReqEntry_ s)) (data (regReqEntry_ s))
              (size (regReqEntry_ s)) Hsz Hd Hroom) as [Hs Hf].
  unfold regSendArgs, regSetup, frame_of. cbn [s_size s_buf].
  rewrite Hw. split; [exact Hs|exact Hf].
Qed.

Lemma regSetup_read_frame s :
  regReqWrite_ s = false ->
  roomy (regBuff_ s) (size (regReqEntry_ s)) ->
  let a := regSendArgs s (regSetup s) in
  s_size a = 4
  /\ frame_of a =
       [0; addrB (regReqEntry_ s); sub (size (regReqEntry_ s)) 1; 0].
Proof.
  intros Hw Hroom.
  pose proof (read_frame_words (regBuff_ s) 0 0 (addrB (regReqEntry_ s))
                (size (regReqEntry_ s)) Hroom) as Hf.
  unfold regSendArgs, regSetup, frame_of. cbn [s_size s_buf].
  rewrite Hw. split; [reflexivity|exact Hf].
Qed.

(** Bit 30 of a header word is the write flag and nothing else. *)
Lemma word1_flag_bit (isWrite : bool) (reg : Register) :
  Z.testbit (Z.lor (if isWrite then 0x40000000 else 0) (addrA reg)) 30
    = isWrite
  /\ Z.testbit (Z.lor (if isWrite then 0x40000000 else 0) (addrB reg)) 30
    = isWrite.
Proof.
  unfold addrA, addrB. rewrite !Z.lor_spec, !Z.land_spec.
  change (Z.testbit 0x3FFFFFFF 30) with false.
  change (Z.testbit 0x00FFFFFF 30) with false.
  rewrite !andb_false_r, !orb_false_r.
  destruct isWrite; split; reflexivity.
Qed.

(** C3. Register frames.  For a register of S words (its buffer holding
    S words, the transmit buffer having room): a write frame is S+3 words,
    namely word0, word1, the S payload words and one zero word; a read
    frame is 4 words with word2 = S-1 (in 32-bit arithmetic, S-1 itself
    for S >= 1) and word3 = 0; word1 is bit 30 for a write, OR'd with the
    address shifted right by 2 and masked to 30 bits in [MultDestPgpMask]
    (Scheme A, word0 = context), with the address masked to its low 24
    bits in [PgpCardG3Link] (Scheme B, word0 = 0).  A Scheme A write to
    0x00001000 of [0xAAAA, 0xBBBB] is [context, 0x40000400, 0xAAAA,
    0xBBBB, 0]. *)
Theorem register_frame_encoding
        (txData_ : list Z) (reg : Register) (size_ context config : Z)
        (s : State) :
  reg_wf reg -> roomy txData_ (size reg) ->
  reg_wf (regReqEntry_ s) -> roomy (regBuff_ s) (size (regReqEntry_ s)) ->
  (exists a,
     setup txData_ MultTypeRegisterWrite (PReg reg) size_ context config
       = Some a
     /\ s_size a = size reg + 3
     /\ Z.of_nat (length (frame_of a)) = size reg + 3
     /\ frame_of a =
          [context;
           Z.lor 0x40000000 (Z.land (Z.shiftr (address reg) 2) 0x3FFFFFFF)]
          ++ data reg ++ [0])
  /\ (exists a,
     setup txData_ MultTypeRegisterRead (PReg reg) size_ context config
       = Some a
     /\ s_size a = 4
     /\ frame_of a =
          [context; Z.land (Z.shiftr (address reg) 2) 0x3FFFFFFF;
           sub (size reg) 1; 0])
  /\ (regReqWrite_ s = true ->
      let a := regSendArgs s (regSetup s) in
      s_size a = size (regReqEntry_ s) + 3
      /\ Z.of_nat (length (frame_of a)) = size (regReqEntry_ s) + 3
      /\ frame_of a =
           [0; Z.lor 0x40000000 (Z.land (address (regReqEntry_ s)) 0x00FFFFFF)]
           ++ data (regReqEntry_ s) ++ [0])
  /\ (regReqWrite_ s = false ->
      let a := regSendArgs s (regSetup s) in
      s_size a = 4
      /\ frame_of a =
           [0; Z.land (address (regReqEntry_ s)) 0x00FFFFFF;
            sub (size (regReqEntry_ s)) 1; 0])
  /\ (1 <= size reg -> sub (size reg) 1 = size reg - 1)
  /\ (1 <= size (regReqEntry_ s) ->
      sub (size (regReqEntry_ s)) 1 = size (regReqEntry_ s) - 1)
  /\ (forall st,
        reg = mkRegister 0x00001000 [0xAAAA; 0xBBBB] 2 st ->
        option_map frame_of
          (setup txData_ MultTypeRegisterWrite (PReg reg) size_ context config)
        = Some [context; 0x40000400; 0xAAAA; 0xBBBB; 0]).
Proof.
  intros Hwf Hroom Hwf' Hroom'.
  destruct (setup_write_frame txData_ reg size_ context config Hwf Hroom)
    as (a & Ha & Hs & Hf).
  destruct (setup_read_frame txData_ reg size_ context config Hroom)
    as (a' & Ha' & Hs' & Hf').
  assert (Hlen : forall (d : list Z) n, 0 <= n -> length d = Z.to_nat n ->
            forall w0 w1 : Z,
            Z.of_nat (length ([w0; w1] ++ d ++ [0])) = n + 3).
  { intros d n Hn Hd w0 w1. rewrite !length_app, Hd. simpl. lia. }
  repeat apply conj.
  - exists a. repeat split; try assumption.
    rewrite Hf. destruct Hwf. apply Hlen; assumption.
  - exists a'. repeat split; assumption.
  - intros Hw. destruct (regSetup_write_frame s Hw Hwf' Hroom') as [H1 H2].
    cbv zeta. repeat split; try assumption.
    rewrite H2. destruct Hwf'. apply Hlen; assumption.
  - intros Hw. exact (regSetup_read_frame s Hw Hroom').
  - intros H1. destruct Hroom as (_ & H & H'). unfold sub.
    apply wrap_small. lia.
  - intros H1. destruct Hroom' as (_ & H & H'). unfold sub.
    apply wrap_small. lia.
  - intros st Hreg. rewrite Ha. cbn [option_map]. rewrite Hf.
    subst reg. reflexivity.
Qed.

End Codec.

(** ** Receive classifier *)

Section Classifier.

Import Word32 PgpCardG3Link.

(** A one-hot bit meets a mask exactly when the mask has that bit. *)
Lemma onehot_meets n m :
  0 <= n -> (nz (Z.land (2 ^ n) m) = Z.testbit m n).
Proof.
  intros Hn. unfold nz.
  destruct (Z.testbit m n) eqn:E.
  - apply negb_true_iff, Z.eqb_neq. intros H0.
    assert (Hb : Z.testbit (Z.land (2 ^ n) m) n = true).
    { rewrite Z.land_spec, Z.pow2_bits_true, E by lia. reflexivity. }
    rewrite H0, Z.bits_0 in Hb. discriminate.
  - apply negb_false_iff, Z.eqb_eq. apply Z.bits_inj_0. intros i.
    rewrite Z.land_spec.
    destruct (Z.eq_dec i n) as [->|Hne].
    + rewrite E. apply andb_false_r.
    + rewrite Z.pow2_bits_false by lia. reflexivity.
Qed.

Lemma onehot32 n : 0 <= n < 32 -> shl 0x1 n = 2 ^ n.
Proof.
  intros Hn. unfold shl. rewrite Z.shiftl_1_l. apply wrap_small.
  split; [apply Z.pow_nonneg; lia | apply Z.pow_lt_mono_r; lia].
Qed.

Lemma isData_bits s lane vc :
  0 <= lane < 32 -> 0 <= vc < 32 ->
  isData s lane vc =
    ((vc <? 4) && Z.testbit (dataSource_ s) vc)
    && ((lane <? 8) && Z.testbit (dataSource_ s) (lane + 4)).
Proof.
  intros Hl Hv. unfold isData, vcMaskRx, laneMaskRx, vcMask, laneMask, shr.
  rewrite !onehot32 by assumption.
  rewrite !onehot_meets by lia.
  rewrite !Z.land_spec, Z.shiftr_spec by lia.
  change 0xF with (Z.ones 4). change 0xFF with (Z.ones 8).
  rewrite !Z.testbit_ones_nonneg by lia.
  rewrite (andb_comm (Z.testbit _ vc)), (andb_comm (Z.testbit _ (lane + 4))).
  reflexivity.
Qed.

Lemma rxStep_clean s rx :
  clean rx ->
  rxStep s rx =
    if isData s (rx_lane rx) (rx_vc rx)
    then set_dataQueue_ s
           (dataQueue_ s ++ [take (Z.to_nat (rx_ret rx)) (rx_buf rx)])
    else correlate s (rx_buf rx) (rx_ret rx).
Proof.
  intros (Hr & He & Hf & Hl). unfold rxStep. rewrite He, Hf, Hl.
  destruct (Z.leb_spec (rx_ret rx) 0); [lia|].
  destruct (Z.ltb_spec (rx_ret rx) 4); [lia|]. reflexivity.
Qed.

(** C6. A received frame that passed the error checks, on lane and vc,
    is a data frame exactly when the one-hot bit [1 << vc] meets the 4-bit
    vc mask (bits 0-3 of [dataSource_]) and [1 << lane] meets the 8-bit
    lane mask (bits 4-11), that is when vc < 4, lane < 8 and [dataSource_]
    has bits vc and lane+4; it is then queued, and otherwise it goes to
    the correlator, whatever its words are.  With vc mask 0b0001 and lane
    mask 0b00000100, lane 2 vc 0 is data and lane 2 vc 1 is control. *)
Theorem classify_data_iff_masks (s : State) (rx : RxResult) :
  clean rx -> 0 <= rx_lane rx < 32 -> 0 <= rx_vc rx < 32 ->
  let lane := rx_lane rx in
  let vc := rx_vc rx in
  (isData s lane vc = true <->
     Z.land (Z.shiftl 1 vc) (Z.land (dataSource_ s) 0xF) <> 0
     /\ Z.land (Z.shiftl 1 lane) (Z.land (Z.shiftr (dataSource_ s) 4) 0xFF) <> 0)
  /\ (isData s lane vc = true <->
        (vc < 4 /\ Z.testbit (dataSource_ s) vc = true)
        /\ (lane < 8 /\ Z.testbit (dataSource_ s) (lane + 4) = true))
  /\ (isData s lane vc = true ->
        rxStep s rx =
          set_dataQueue_ s
            (dataQueue_ s ++ [take (Z.to_nat (rx_ret rx)) (rx_buf rx)]))
  /\ (isData s lane vc = false ->
        rxStep s rx = correlate s (rx_buf rx) (rx_ret rx))
  /\ (vcMask s = 1 -> laneMask s = 4 ->
        isData s 2 0 = true /\ isData s 2 1 = false).
Proof.
  intros Hc Hl Hv lane vc. subst lane vc.
  split; [|split; [|split; [|split]]].
  - unfold isData, vcMaskRx, laneMaskRx, vcMask, laneMask, shr.
    rewrite !onehot32 by assumption. rewrite !Z.shiftl_1_l.
    unfold nz. rewrite andb_true_iff, !negb_true_iff, !Z.eqb_neq.
    reflexivity.
  - rewrite isData_bits by assumption.
    rewrite !andb_true_iff, !Z.ltb_lt. reflexivity.
  - intros Hd. rewrite rxStep_clean by assumption. rewrite Hd. reflexivity.
  - intros Hd. rewrite rxStep_clean by assumption. rewrite Hd. reflexivity.
  - intros Hvm Hlm. unfold isData. rewrite Hvm, Hlm. split; reflexivity.
Qed.

End Classifier.

(** ** Correlator of the asynchronous variant *)

Section Correlator.

Import Word32 PgpCardG3Link.

Lemma eq8_same_header s rx :
  Buf.eq8 (rx_buf rx) (regBuff_ s) = true <-> same_header s rx.
Proof.
  unfold Buf.eq8, same_header. rewrite andb_true_iff, !Z.eqb_eq. reflexivity.
Qed.

Lemma matches_iff s rx :
  4 <= rx_ret rx < 2 ^ 31 ->
  matches s (rx_buf rx) (rx_ret rx) = true
  <-> same_header s rx /\ rx_ret rx - 3 = size (regReqEntry_ s).
Proof.
  intros Hr. unfold matches.
  rewrite andb_true_iff, eq8_same_header, Z.eqb_eq.
  rewrite wrap_small by lia. reflexivity.
Qed.

Lemma splat_FF : Buf.splat 0xFF = 0xFFFFFFFF.
Proof. reflexivity. Qed.

Lemma memcpy_whole (dst src : list Z) (n : Z) :
  0 <= n -> n < 2 ^ 30 -> length dst = Z.to_nat n ->
  Buf.memcpy dst 0 src (mul n 4) = take (Z.to_nat n) src.
Proof.
  intros H0 Hn Hd. unfold Buf.memcpy, mul.
  rewrite wrap_small by lia. rewrite Z.div_mul by lia.
  change (Z.to_nat 0) with 0%nat. cbn [take Nat.add app].
  rewrite drop_ge by lia. apply app_nil_r.
Qed.

Lemma memset_whole (dst : list Z) (c n : Z) :
  0 <= n -> n < 2 ^ 30 -> length dst = Z.to_nat n ->
  Buf.memset dst c (mul n 4) = replicate (Z.to_nat n) (Buf.splat c).
Proof.
  intros H0 Hn Hd. unfold Buf.memset, mul.
  rewrite wrap_small by lia. rewrite Z.div_mul by lia.
  rewrite drop_ge by lia. rewrite Hd, Nat.min_id. apply app_nil_r.
Qed.

(** C2. A control frame whose first two words are those of the register
    request last built in [regBuff_] and whose length minus 3 is the size
    of the outstanding register: for a read, its payload words (indices 2
    to length-2) become the register's data when the last received word,
    the status word, is zero, and otherwise every data word becomes
    0xFFFFFFFF; a write leaves the data alone; in every case the status
    word is stored in the register and [regRespCnt_] goes up by one (as a
    32-bit counter), nothing else changing. *)
Theorem correlate_matching_response (s : State) (rx : RxResult) :
  clean rx -> received rx ->
  isData s (rx_lane rx) (rx_vc rx) = false ->
  reg_wf (regReqEntry_ s) ->
  same_header s rx -> rx_ret rx - 3 = size (regReqEntry_ s) ->
  let s' := rxStep s rx in
  let st := Buf.load (rx_buf rx) (rx_ret rx - 1) in
  let n := Z.to_nat (size (regReqEntry_ s)) in
  (regReqWrite_ s = false -> st = 0 ->
     data (regReqEntry_ s') = take n (drop 2 (rx_buf rx))
     /\ length (data (regReqEntry_ s')) = n)
  /\ (regReqWrite_ s = false -> st <> 0 ->
     data (regReqEntry_ s') = replicate n 0xFFFFFFFF)
  /\ (regReqWrite_ s = true ->
     data (regReqEntry_ s') = data (regReqEntry_ s))
  /\ status (regReqEntry_ s') = st
  /\ regRespCnt_ s' = incr (regRespCnt_ s)
  /\ (0 <= regRespCnt_ s < 2 ^ 32 - 1 -> regRespCnt_ s' = regRespCnt_ s + 1)
  /\ unexpCount_ s' = unexpCount_ s
  /\ errorCount_ s' = errorCount_ s
  /\ dataQueue_ s' = dataQueue_ s
  /\ regBuff_ s' = regBuff_ s.
Proof.
  intros Hc [Hlen Hcap] Hd [Hsz Hdl] Hh Hm s' st n. subst s' st n.
  rewrite rxStep_clean by assumption. rewrite Hd.
  assert (Hr : 4 <= rx_ret rx < 2 ^ 31) by (destruct Hc; lia).
  assert (Hmt : matches s (rx_buf rx) (rx_ret rx) = true)
    by (apply matches_iff; auto).
  unfold correlate. rewrite Hmt.
  assert (Hn : size (regReqEntry_ s) < 2 ^ 30) by lia.
  split; [|split; [|split]].
  - intros Hw Hst. rewrite Hw. cbn [negb]. rewrite Hst. cbn.
    rewrite memcpy_whole by assumption. split; [reflexivity|].
    rewrite length_take, length_drop. lia.
  - intros Hw Hst. rewrite Hw. cbn [negb].
    destruct (Z.eqb_spec (Buf.load (rx_buf rx) (rx_ret rx - 1)) 0);
      [contradiction|]. cbn.
    rewrite memset_whole by assumption. reflexivity.
  - intros Hw. rewrite Hw. reflexivity.
  - repeat split.
    intros Hcnt. cbn. apply incr_small. exact Hcnt.
Qed.

(** C5. A control frame that is not the awaited response (its first two
    words differ from those in [regBuff_], or its length minus 3 is not
    the size of the outstanding register) only adds one to
    [unexpCount_]: [regRespCnt_], the register's data and status and the
    data queue stay as they were. *)
Theorem correlate_unexpected_frame (s : State) (rx : RxResult) :
  clean rx -> rx_ret rx < 2 ^ 31 ->
  isData s (rx_lane rx) (rx_vc rx) = false ->
  ~ (same_header s rx /\ rx_ret rx - 3 = size (regReqEntry_ s)) ->
  let s' := rxStep s rx in
  s' = set_unexpCount_ s (incr (unexpCount_ s))
  /\ unexpCount_ s' = incr (unexpCount_ s)
  /\ (0 <= unexpCount_ s < 2 ^ 32 - 1 -> unexpCount_ s' = unexpCount_ s + 1)
  /\ regRespCnt_ s' = regRespCnt_ s
  /\ regReqEntry_ s' = regReqEntry_ s
  /\ dataQueue_ s' = dataQueue_ s
  /\ errorCount_ s' = errorCount_ s.
Proof.
  intros Hc Hr Hd Hno s'. subst s'.
  rewrite rxStep_clean by assumption. rewrite Hd.
  assert (Hmf : matches s (rx_buf rx) (rx_ret rx) = false).
  { destruct (matches s (rx_buf rx) (rx_ret rx)) eqn:E; [|reflexivity].
    exfalso. apply Hno. apply matches_iff; [destruct Hc; lia | exact E]. }
  unfold correlate. rewrite Hmf.
  repeat split. intros Hcnt. cbn. apply incr_small. exact Hcnt.
Qed.

End Correlator.

(** ** Transmit scheduler of the asynchronous variant *)

Section Scheduler.

Import Word32 PgpCardG3Link.

Lemma highest_spec l s c :
  highest l s = Some c <->
  pending c l s = true
  /\ forall c', (rank c' < rank c)%nat -> pending c' l s = false.
Proof.
  unfold highest. split.
  - destruct (pending Run l s) eqn:E0; [intros [= <-]|
    destruct (pending Reg l s) eqn:E1; [intros [= <-]|
    destruct (pending Cmd l s) eqn:E2; [intros [= <-]|
    destruct (pending Dat l s) eqn:E3; [intros [= <-]|discriminate]]]];
    (split; [assumption|]); intros [] Hlt; simpl in Hlt;
      try lia; assumption.
  - intros [Hp Hhi].
    destruct c; simpl in Hhi.
    + rewrite Hp. reflexivity.
    + rewrite (Hhi Run), Hp by (simpl; lia). reflexivity.
    + rewrite (Hhi Run), (Hhi Reg), Hp by (simpl; lia). reflexivity.
    + rewrite (Hhi Run), (Hhi Reg), (Hhi Cmd), Hp by (simpl; lia).
      reflexivity.
Qed.

Lemma highest_some l s :
  (exists c, pending c l s = true) -> exists c, highest l s = Some c.
Proof.
  intros [c Hc]. unfold highest.
  destruct (pending Run l s) eqn:E0; [eauto|].
  destruct (pending Reg l s) eqn:E1; [eauto|].
  destruct (pending Cmd l s) eqn:E2; [eauto|].
  destruct (pending Dat l s) eqn:E3; [eauto|].
  destruct c; congruence.
Qed.

(** One pass of the loop, by the class it serves; the answer of the send
    primitive is not looked at. *)
Lemma ioCycle_highest l s lk :
  ioCycle l s lk =
    match highest l s with
    | Some Run =>
        (mkLast (lastReqCnt l) (lastCmdCnt l) (runReqCnt_ s) (lastDataCnt l),
         s, snd (pgpcard_send lk (argsOf Run s)))
    | Some Reg =>
        (mkLast (regReqCnt_ s) (lastCmdCnt l) (lastRunCnt l) (lastDataCnt l),
         set_regBuff_ s (regSetup s), snd (pgpcard_send lk (argsOf Reg s)))
    | Some Cmd =>
        (mkLast (lastReqCnt l) (cmdReqCnt_ s) (lastRunCnt l) (lastDataCnt l),
         set_cmdRespCnt_ s (incr (cmdRespCnt_ s)),
         snd (pgpcard_send lk (argsOf Cmd s)))
    | Some Dat =>
        (mkLast (lastReqCnt l) (lastCmdCnt l) (lastRunCnt l) (dataReqCnt_ s),
         set_dataRespCnt_ s (incr (dataRespCnt_ s)),
         snd (pgpcard_send lk (argsOf Dat s)))
    | None => (l, s, lk)
    end.
Proof.
  unfold ioCycle, highest, pending, lastOf, reqOf.
  destruct (lastRunCnt l =? runReqCnt_ s); cbn [negb]; [|reflexivity].
  destruct (lastReqCnt l =? regReqCnt_ s); cbn [negb]; [|reflexivity].
  destruct (lastCmdCnt l =? cmdReqCnt_ s); cbn [negb]; [|reflexivity].
  destruct (lastDataCnt l =? dataReqCnt_ s); cbn [negb]; reflexivity.
Qed.

(** The state the threads share and the thread's own counters do not
    depend on the link or on what the send primitive answers. *)
Lemma ioCycle_link_independent l s lk1 lk2 :
  fst (ioCycle l s lk1) = fst (ioCycle l s lk2).
Proof.
  rewrite !ioCycle_highest. destruct (highest l s) as [[]|]; reflexivity.
Qed.

(** C7. In a pass of the transmit loop in which some class is pending,
    exactly one frame is sent, that of the pending class of best priority
    in the order run command, register, command, data; only that class's
    served counter moves (to its request counter); serving a command or
    data request adds one to that class's response counter, and serving a
    run command or a register request changes no response counter. *)
Theorem scheduler_serves_highest_pending (l : Last) (s : State) (lk : Link) :
  (exists c0, pending c0 l s = true) ->
  let r := ioCycle l s lk in
  let l' := fst (fst r) in
  let s' := snd (fst r) in
  let lk' := snd r in
  exists c,
    highest l s = Some c
    /\ pending c l s = true
    /\ (forall c', (rank c' < rank c)%nat -> pending c' l s = false)
    /\ calls lk' = S (calls lk)
    /\ sent lk' = sent lk ++ [argsOf c s]
    /\ (forall c',
         lastOf c' l' = if Class_eqb c' c then reqOf c' s else lastOf c' l)
    /\ regRespCnt_ s' = regRespCnt_ s
    /\ cmdRespCnt_ s' =
         (if Class_eqb c Cmd then incr (cmdRespCnt_ s) else cmdRespCnt_ s)
    /\ dataRespCnt_ s' =
         (if Class_eqb c Dat then incr (dataRespCnt_ s) else dataRespCnt_ s)
    /\ (forall c', reqOf c' s' = reqOf c' s)
    /\ (forall x, 0 <= x < 2 ^ 32 - 1 -> incr x = x + 1).
Proof.
  intros Hp r l' s' lk'. subst r l' s' lk'.
  destruct (highest_some l s Hp) as [c Hc].
  exists c. destruct (proj1 (highest_spec l s c) Hc) as [Hpc Hhi].
  rewrite ioCycle_highest, Hc.
  split; [reflexivity|]. split; [exact Hpc|]. split; [exact Hhi|].
  destruct c; cbn [fst snd pgpcard_send calls sent Class_eqb];
    (repeat split; try (intros []; reflexivity); try apply incr_small).
Qed.

(** C1 as the code has it.  The scheduler does not look at what the send
    primitive returns: in a pass that attempts a send which fails, the
    served counter of the attempted class is set to its request counter
    all the same, the class is no longer pending and is not the one tried
    at the next pass; the thread's counters and the shared state after a
    pass are the same whatever the send primitive answers. *)
Theorem scheduler_ignores_send_result
        (l : Last) (s : State) (lk : Link) (c : Class) :
  highest l s = Some c ->
  fst (pgpcard_send lk (argsOf c s)) < 0 ->
  let r := ioCycle l s lk in
  let l' := fst (fst r) in
  let s' := snd (fst r) in
  sent (snd r) = sent lk ++ [argsOf c s]
  /\ lastOf c l' = reqOf c s
  /\ pending c l' s' = false
  /\ highest l' s' <> Some c
  /\ (forall lk2, fst (ioCycle l s lk2) = (l', s')).
Proof.
  intros Hc _ r l' s'. subst r l' s'.
  assert (Hl : lastOf c (fst (fst (ioCycle l s lk))) = reqOf c s).
  { rewrite ioCycle_highest, Hc. destruct c; reflexivity. }
  assert (Hq : reqOf c (snd (fst (ioCycle l s lk))) = reqOf c s).
  { rewrite ioCycle_highest, Hc. destruct c; reflexivity. }
  assert (Hn : pending c (fst (fst (ioCycle l s lk)))
                 (snd (fst (ioCycle l s lk))) = false).
  { unfold pending. rewrite Hl, Hq, Z.eqb_refl. reflexivity. }
  split; [|split; [exact Hl|split; [exact Hn|split]]].
  - rewrite ioCycle_highest, Hc. destruct c; reflexivity.
  - intros Hh. apply highest_spec in Hh. destruct Hh as [Hh _]. congruence.
  - intros lk2. rewrite (ioCycle_link_independent l s lk2 lk).
    destruct (ioCycle l s lk) as [[? ?] ?]. reflexivity.
Qed.

End Scheduler.

(** ** Send with retry of the synchronous variant *)

Section Retry.

Import Word32 MultDestPgpMask.

Lemma after_send lk a k :
  after (snd (pgpcard_send lk a)) a k = after lk a (S k).
Proof.
  unfold after, pgpcard_send. cbn [snd sendRet calls sent].
  f_equal; [lia|]. rewrite <- app_assoc. reflexivity.
Qed.

Lemma retry_done fuel lk a ret :
  0 <= ret -> retry fuel lk a ret = Some (ret, lk).
Proof.
  intros H. destruct fuel; simpl;
    destruct (Z.ltb_spec ret 0); try lia; reflexivity.
Qed.

(** After a failed call, [n] more failures and then an answer that is not
    negative: the loop stops on that answer, [n+1] calls later. *)
Lemma retry_until n : forall fuel lk a ret,
  ret < 0 ->
  (forall i, (i < n)%nat -> sendRet lk (calls lk + i) < 0) ->
  0 <= sendRet lk (calls lk + n) ->
  (n < fuel)%nat ->
  retry fuel lk a ret = Some (sendRet lk (calls lk + n), after lk a (S n)).
Proof.
  induction n as [|n IH]; intros fuel lk a ret Hret Hfail Hok Hfuel.
  - destruct fuel as [|fuel]; [lia|]. simpl.
    destruct (Z.ltb_spec ret 0); [|lia].
    rewrite retry_done by (rewrite Nat.add_0_r in Hok; exact Hok).
    rewrite Nat.add_0_r. f_equal. f_equal. unfold after. f_equal. lia.
  - destruct fuel as [|fuel]; [lia|]. simpl.
    destruct (Z.ltb_spec ret 0); [|lia].
    set (lk1 := {| sendRet := sendRet lk; calls := S (calls lk);
                   sent := sent lk ++ [a] |}).
    rewrite (IH fuel lk1 a (sendRet lk (calls lk))).
    + subst lk1. cbn [sendRet calls].
      replace (S (calls lk) + n)%nat with (calls lk + S n)%nat by lia.
      f_equal. f_equal.
      change (after (snd (pgpcard_send lk a)) a (S n) = after lk a (S (S n))).
      apply after_send.
    + specialize (Hfail 0%nat). rewrite Nat.add_0_r in Hfail.
      apply Hfail. lia.
    + intros i Hi. subst lk1. cbn [sendRet calls].
      replace (S (calls lk) + i)%nat with (calls lk + S i)%nat by lia.
      apply Hfail. lia.
    + subst lk1. cbn [sendRet calls].
      replace (S (calls lk) + n)%nat with (calls lk + S n)%nat by lia.
      exact Hok.
    + lia.
Qed.

(** While every answer is negative the loop goes on: it has not returned
    when the fuel is spent. *)
Lemma retry_starved fuel : forall lk a ret,
  ret < 0 ->
  (forall i, (i < fuel)%nat -> sendRet lk (calls lk + i) < 0) ->
  retry fuel lk a ret = None.
Proof.
  induction fuel as [|fuel IH]; intros lk a ret Hret Hfail; simpl;
    destruct (Z.ltb_spec ret 0); try lia; [reflexivity|].
  apply IH.
  - specialize (Hfail 0%nat). rewrite Nat.add_0_r in Hfail. apply Hfail. lia.
  - intros i Hi. cbn [sendRet calls].
    replace (S (calls lk) + i)%nat with (calls lk + S i)%nat by lia.
    apply Hfail. lia.
Qed.

Lemma send_all_until lk a n fuel :
  (forall i, (i < n)%nat -> sendRet lk (calls lk + i) < 0) ->
  0 <= sendRet lk (calls lk + n) ->
  (n <= fuel)%nat ->
  send_all fuel lk a =
    Some ((if sendRet lk (calls lk + n) >? 0
           then smul (sendRet lk (calls lk + n)) 4
           else sendRet lk (calls lk + n)),
          after lk a (S n)).
Proof.
  intros Hfail Hok Hfuel. unfold send_all.
  change (pgpcard_send lk a)
    with (sendRet lk (calls lk), snd (pgpcard_send lk a)).
  cbv iota beta.
  destruct n as [|n].
  - rewrite Nat.add_0_r in *. rewrite retry_done by exact Hok.
    rewrite <- after_send. unfold after at 1.
    cbn [snd pgpcard_send sendRet calls sent replicate].
    rewrite Nat.add_0_r, app_nil_r. reflexivity.
  - rewrite (retry_until n); cbn [snd pgpcard_send sendRet calls].
    + replace (S (calls lk) + n)%nat with (calls lk + S n)%nat by lia.
      rewrite <- (after_send lk a (S n)). reflexivity.
    + specialize (Hfail 0%nat). rewrite Nat.add_0_r in Hfail.
      apply Hfail. lia.
    + intros i Hi.
      replace (S (calls lk) + i)%nat with (calls lk + S i)%nat by lia.
      apply Hfail. lia.
    + replace (S (calls lk) + n)%nat with (calls lk + S n)%nat by lia.
      exact Hok.
    + lia.
Qed.

Lemma send_all_starved lk a n fuel :
  (forall i, (i < n)%nat -> sendRet lk (calls lk + i) < 0) ->
  (fuel < n)%nat ->
  send_all fuel lk a = None.
Proof.
  intros Hfail Hfuel. unfold send_all.
  change (pgpcard_send lk a)
    with (sendRet lk (calls lk), snd (pgpcard_send lk a)).
  cbv iota beta.
  rewrite retry_starved; [reflexivity| |].
  - specialize (Hfail 0%nat). rewrite Nat.add_0_r in Hfail. apply Hfail. lia.
  - intros i Hi. cbn [snd pgpcard_send sendRet calls].
    replace (S (calls lk) + i)%nat with (calls lk + S i)%nat by lia.
    apply Hfail. lia.
Qed.

(** C9. [transmit] keeps calling the send primitive with the same
    arguments while it answers a negative value, with nothing between the
    calls and no bound on their number: if the first [n] answers are
    negative and the next one is not (and is a word count whose byte
    count fits [int32_t]), [transmit] makes exactly [n+1] calls, all with
    the same arguments, and returns that answer times 4 (0 for 0), which
    is not negative; before that answer it has not returned. *)
Theorem transmit_retries_until_success
        (lk : Link) (txData_ : list Z) (type : MultType) (ptr : Payload)
        (size_ context config : Z) (a : SendArgs) (n : nat) :
  setup txData_ type ptr size_ context config = Some a ->
  (forall i, (i < n)%nat -> sendRet lk (calls lk + i) < 0) ->
  0 <= sendRet lk (calls lk + n) < 2 ^ 29 ->
  let r := sendRet lk (calls lk + n) in
  (forall fuel, (n <= fuel)%nat ->
     exists lk',
       transmit fuel lk txData_ type ptr size_ context config
         = Some (r * 4, lk')
       /\ calls lk' = (calls lk + S n)%nat
       /\ sent lk' = sent lk ++ replicate (S n) a)
  /\ 0 <= r * 4
  /\ (forall fuel, (fuel < n)%nat ->
        transmit fuel lk txData_ type ptr size_ context config = None).
Proof.
  intros Hs Hfail Hok r. subst r. split; [|split].
  - intros fuel Hfuel. exists (after lk a (S n)).
    unfold transmit. rewrite Hs.
    rewrite (send_all_until lk a n fuel) by (assumption || lia).
    split; [|split; reflexivity].
    f_equal. f_equal.
    destruct (Z.gtb_spec (sendRet lk (calls lk + n)) 0).
    + apply smul4_small. lia.
    + lia.
  - lia.
  - intros fuel Hfuel. unfold transmit. rewrite Hs.
    apply (send_all_starved lk a n fuel); assumption.
Qed.

End Retry.

(** ** Receive of the synchronous variant *)

Section SyncReceive.

Import Word32 MultDestPgpMask.

Variable isDataSource : Z -> bool.

Lemma receive_rejected reg rx :
  rx_ret rx <> 0 ->
  rx_ret rx < 4 \/ rx_eofe rx <> 0 \/ rx_fifoErr rx <> 0
  \/ rx_lengthErr rx <> 0 ->
  receive isDataSource reg rx = mkRxOut (-1) None None None reg.
Proof.
  intros H0 Hbad. unfold receive.
  destruct (Z.eqb_spec (rx_ret rx) 0); [contradiction|].
  assert (Ht : (rx_ret rx <? 4) || nz (rx_eofe rx) || nz (rx_fifoErr rx)
               || nz (rx_lengthErr rx) = true).
  { unfold nz. rewrite !orb_true_iff, !negb_true_iff, !Z.eqb_neq, Z.ltb_lt.
    tauto. }
  rewrite Ht. reflexivity.
Qed.

Lemma receive_control reg rx :
  clean rx -> control isDataSource rx ->
  receive isDataSource reg rx =
    let rxData := rx_buf rx in
    let ret := rx_ret rx in
    let r := setAddress reg (shl (Buf.load rxData 1) 2) in
    let type :=
      if Z.testbit (Buf.load rxData 1) 30
      then MultTypeRegisterWrite else MultTypeRegisterRead in
    if ret - 3 >? signed (size reg) then
      mkRxOut (-1) (Some type) (Some PtrRegister)
              (Some (Buf.load rxData 0)) r
    else
      mkRxOut (smul ret 4) (Some type) (Some PtrRegister)
              (Some (Buf.load rxData 0))
              (setStatus
                 (setData r (Buf.memcpy (data reg) 0 (drop 2 rxData)
                                        (smul (ret - 3) 4)))
                 (Buf.load rxData (ret - 1))).
Proof.
  intros (Hr & He & Hf & Hl) Hctl. unfold receive, control in *.
  rewrite He, Hf, Hl, Hctl.
  destruct (Z.eqb_spec (rx_ret rx) 0); [lia|].
  destruct (Z.ltb_spec (rx_ret rx) 4); [lia|].
  cbn [orb nz Z.eqb negb].
  change 0x40000000 with (2 ^ 30).
  rewrite (Z.land_comm _ (2 ^ 30)).
  change (negb (Z.land (2 ^ 30) (Buf.load (rx_buf rx) 1) =? 0))
    with (nz (Z.land (2 ^ 30) (Buf.load (rx_buf rx) 1))).
  rewrite onehot_meets by lia. reflexivity.
Qed.

Lemma memcpy_front (dst src : list Z) (k : Z) :
  0 <= k < 2 ^ 29 ->
  Buf.memcpy dst 0 src (smul k 4) =
    take (Z.to_nat k) src ++ drop (Z.to_nat k) dst.
Proof.
  intros Hk. unfold Buf.memcpy. rewrite smul4_small by lia.
  rewrite Z.div_mul by lia. reflexivity.
Qed.

Lemma receive_accepted reg rx :
  clean rx -> received31 rx -> control isDataSource rx ->
  rx_ret rx - 3 <= signed (size reg) ->
  let out := receive isDataSource reg rx in
  let k := Z.to_nat (rx_ret rx - 3) in
  o_ret out = rx_ret rx * 4
  /\ data (o_reg out) = take k (drop 2 (rx_buf rx)) ++ drop k (data reg)
  /\ length (take k (drop 2 (rx_buf rx))) = k
  /\ status (o_reg out) = Buf.load (rx_buf rx) (rx_ret rx - 1)
  /\ o_type out =
       Some (if Z.testbit (Buf.load (rx_buf rx) 1) 30
             then MultTypeRegisterWrite else MultTypeRegisterRead).
Proof.
  intros Hc [Hlen Hcap] Hctl Hacc. cbv zeta.
  rewrite receive_control by assumption. cbv zeta.
  destruct (Z.gtb_spec (rx_ret rx - 3) (signed (size reg))); [lia|].
  assert (4 <= rx_ret rx) by (destruct Hc; assumption).
  cbn [o_ret o_reg o_type data status setStatus setData].
  rewrite smul4_small by lia. rewrite memcpy_front by lia.
  repeat split.
  rewrite length_take, length_drop. lia.
Qed.

(** C10. For every register response [receive] accepts, whether word1
    has bit 30 (a write acknowledgment) or not, the first length-3 words
    of the register's data buffer are overwritten with the received words
    2 .. length-2 and the status becomes the last received word; the
    correlator of the asynchronous variant, on the contrary, leaves the
    data of a write request alone. *)
Theorem sync_receive_copies_payload_for_acks
        (reg : Register) (rx : RxResult)
        (s : PgpCardG3Link.State) (rxBuff : list Z) (ret : Z) :
  clean rx -> received31 rx -> control isDataSource rx ->
  rx_ret rx - 3 <= signed (size reg) ->
  let out := receive isDataSource reg rx in
  let k := Z.to_nat (rx_ret rx - 3) in
  let payload := take k (drop 2 (rx_buf rx)) in
  length payload = k
  /\ data (o_reg out) = payload ++ drop k (data reg)
  /\ status (o_reg out) = Buf.load (rx_buf rx) (rx_ret rx - 1)
  /\ (Z.testbit (Buf.load (rx_buf rx) 1) 30 = true ->
      o_type out = Some MultTypeRegisterWrite
      /\ data (o_reg out) = payload ++ drop k (data reg))
  /\ (length (data reg) = k -> data (o_reg out) = payload)
  /\ (PgpCardG3Link.regReqWrite_ s = true ->
      data (PgpCardG3Link.regReqEntry_ (PgpCardG3Link.correlate s rxBuff ret))
        = data (PgpCardG3Link.regReqEntry_ s)).
Proof.
  intros Hc Hrcv Hctl Hacc out k payload. subst out k payload.
  destruct (receive_accepted reg rx Hc Hrcv Hctl Hacc)
    as (_ & Hd & Hl & Hs & Ht).
  split; [exact Hl|]. split; [exact Hd|]. split; [exact Hs|].
  split; [|split].
  - intros Hbit. rewrite Ht, Hbit. split; [reflexivity|exact Hd].
  - intros Hk. rewrite Hd, (drop_ge (data reg)) by lia. apply app_nil_r.
  - intros Hw. unfold PgpCardG3Link.correlate.
    destruct (PgpCardG3Link.matches s rxBuff ret); [|reflexivity].
    rewrite Hw. reflexivity.
Qed.

(** C4 as the code has it.  [receive] answers 0 when nothing was
    received; it answers the error value -1, touching nothing, for a
    frame of fewer than 4 words or with an error flag; for a control frame
    whose length minus 3 is more than the register's size it answers -1
    as well, with data and status as they were; every other control frame
    is accepted, also when it is shorter than the register: the
    length-3 words at indices 2 .. length-2 overwrite the start of the
    data buffer, the word at index length-1 becomes the status, and the
    byte count length*4 is returned. *)
Theorem sync_receive_outcomes (reg : Register) (rx : RxResult) :
  let out := receive isDataSource reg rx in
  let k := Z.to_nat (rx_ret rx - 3) in
  (rx_ret rx = 0 -> o_ret out = 0 /\ o_reg out = reg)
  /\ (rx_ret rx <> 0 ->
      rx_ret rx < 4 \/ rx_eofe rx <> 0 \/ rx_fifoErr rx <> 0
      \/ rx_lengthErr rx <> 0 ->
      o_ret out = -1 /\ o_reg out = reg)
  /\ (clean rx -> control isDataSource rx -> rx_ret rx - 3 > signed (size reg) ->
      o_ret out = -1
      /\ data (o_reg out) = data reg /\ status (o_reg out) = status reg)
  /\ (clean rx -> received31 rx -> control isDataSource rx ->
      rx_ret rx - 3 <= signed (size reg) ->
      o_ret out = rx_ret rx * 4
      /\ data (o_reg out) = take k (drop 2 (rx_buf rx)) ++ drop k (data reg)
      /\ length (take k (drop 2 (rx_buf rx))) = k
      /\ status (o_reg out) = Buf.load (rx_buf rx) (rx_ret rx - 1)).
Proof.
  cbv zeta. split; [|split; [|split]].
  - intros H0. unfold receive. rewrite H0. cbn. split; reflexivity.
  - intros H0 Hbad. rewrite receive_rejected by assumption.
    split; reflexivity.
  - intros Hc Hctl Hbig. rewrite receive_control by assumption. cbv zeta.
    destruct (Z.gtb_spec (rx_ret rx - 3) (signed (size reg))); [|lia].
    repeat split.
  - intros Hc Hrcv Hctl Hacc.
    destruct (receive_accepted reg rx Hc Hrcv Hctl Hacc)
      as (Hr & Hd & Hl & Hs & _).
    repeat split; assumption.
Qed.

End SyncReceive.

(** C4 as stated fails: with a register of 2 words, a frame of 3 words is
    answered with the error value -1, and a 4-word response, whose one
    payload word is not the 2 the register expects, is accepted and
    overwrites the first data word. *)
Lemma sync_receive_short_or_partial_cex :
  let reg := mkRegister 0 [0x11; 0x22] 2 0 in
  let short := mkRxResult 3 [0; 0x10; 0] 0 0 0 0 0 in
  let part := mkRxResult 4 [0; 0x10; 0x77; 0] 0 0 0 0 0 in
  let isDataSource := fun _ : Z => false in
  MultDestPgpMask.o_ret (MultDestPgpMask.receive isDataSource reg short) = -1
  /\ ~ (0 <= MultDestPgpMask.o_ret
                (MultDestPgpMask.receive isDataSource reg short))
  /\ rx_ret part - 3 <> size reg
  /\ MultDestPgpMask.o_ret (MultDestPgpMask.receive isDataSource reg part)
       = 16
  /\ data (MultDestPgpMask.o_reg
             (MultDestPgpMask.receive isDataSource reg part)) = [0x77; 0x22]
  /\ ~ (data (MultDestPgpMask.o_reg
                (MultDestPgpMask.receive isDataSource reg part)) = data reg).
Proof.
  cbv zeta. repeat split; try reflexivity; vm_compute; congruence.
Qed.

(** * The statements on sample values *)

Section Samples.

Import Word32 MultDestPgpMask PgpCardG3Link.

(** Decides a closed arithmetic fact by evaluation. *)
Local Ltac evaluated :=
  vm_compute; repeat split;
  first [reflexivity | discriminate | (intro; discriminate) | lia].

(** C1 as stated fails: with one register request posted and a driver
    that refuses the send, the pass still moves the served counter of the
    register class from 0 to the request counter 1, after which the
    class is not pending. *)
Lemma failed_send_still_serviced_cex :
  let r := ioCycle sample_last sample_state failing_link in
  fst (pgpcard_send failing_link (argsOf Reg sample_state)) = -1
  /\ highest sample_last sample_state = Some Reg
  /\ lastOf Reg sample_last = 0
  /\ lastOf Reg (fst (fst r)) = 1
  /\ ~ (lastOf Reg (fst (fst r)) = lastOf Reg sample_last)
  /\ ~ (pending Reg (fst (fst r)) (snd (fst r)) = true).
Proof. evaluated. Qed.

Lemma scheduler_ignores_send_result_witness :
  lastOf Reg (fst (fst (ioCycle sample_last sample_state failing_link)))
    = reqOf Reg sample_state.
Proof.
  assert (Hc : highest sample_last sample_state = Some Reg) by reflexivity.
  assert (Hf : fst (pgpcard_send failing_link (argsOf Reg sample_state)) < 0)
    by reflexivity.
  exact (proj1 (proj2 (scheduler_ignores_send_result
                         sample_last sample_state failing_link Reg Hc Hf))).
Defined.

Lemma correlate_matching_response_witness :
  data (regReqEntry_ (rxStep sample_state sample_response)) = [0x11; 0x22]
  /\ status (regReqEntry_ (rxStep sample_state sample_response)) = 0
  /\ regRespCnt_ (rxStep sample_state sample_response) = 1.
Proof.
  assert (H1 : clean sample_response) by evaluated.
  assert (H2 : received sample_response) by evaluated.
  assert (H3 : isData sample_state (rx_lane sample_response)
                 (rx_vc sample_response) = false) by reflexivity.
  assert (H4 : reg_wf (regReqEntry_ sample_state)) by evaluated.
  assert (H5 : same_header sample_state sample_response) by evaluated.
  assert (H6 : rx_ret sample_response - 3 = size (regReqEntry_ sample_state))
    by reflexivity.
  destruct (correlate_matching_response sample_state sample_response
              H1 H2 H3 H4 H5 H6) as (Hrd & _ & _ & Hst & Hcnt & _).
  split; [|split; [exact Hst|exact Hcnt]].
  exact (proj1 (Hrd eq_refl eq_refl)).
Defined.

Lemma register_frame_encoding_witness :
  option_map frame_of
    (setup (replicate 8 0) MultTypeRegisterWrite (PReg sample_reg) 0 0x55 0x1200)
  = Some [0x55; 0x40000400; 0xAAAA; 0xBBBB; 0].
Proof.
  assert (H1 : reg_wf sample_reg) by evaluated.
  assert (H2 : roomy (replicate 8 0) (size sample_reg)) by evaluated.
  assert (H3 : reg_wf (regReqEntry_ sample_state)) by evaluated.
  assert (H4 : roomy (regBuff_ sample_state) (size (regReqEntry_ sample_state)))
    by evaluated.
  destruct (register_frame_encoding (replicate 8 0) sample_reg 0 0x55 0x1200
              sample_state H1 H2 H3 H4) as (_ & _ & _ & _ & _ & _ & Hex).
  exact (Hex 0 eq_refl).
Defined.

Lemma sync_receive_outcomes_witness :
  o_ret (receive (fun _ => false) sample_reg sample_response) = 20
  /\ data (o_reg (receive (fun _ => false) sample_reg sample_response))
     = [0x11; 0x22].
Proof.
  assert (H1 : clean sample_response) by evaluated.
  assert (H2 : received31 sample_response) by evaluated.
  assert (H3 : control (fun _ => false) sample_response) by reflexivity.
  assert (H4 : rx_ret sample_response - 3 <= signed (size sample_reg))
    by evaluated.
  destruct (sync_receive_outcomes (fun _ => false) sample_reg sample_response)
    as (_ & _ & _ & Hacc).
  destruct (Hacc H1 H2 H3 H4) as (Hr & Hd & _).
  split; [exact Hr|exact Hd].
Defined.

Lemma correlate_unexpected_frame_witness :
  unexpCount_ (rxStep sample_state sample_stray) = 1
  /\ regRespCnt_ (rxStep sample_state sample_stray) = 0
  /\ regReqEntry_ (rxStep sample_state sample_stray) = sample_reg.
Proof.
  assert (H1 : clean sample_stray) by evaluated.
  assert (H2 : rx_ret sample_stray < 2 ^ 31) by reflexivity.
  assert (H3 : isData sample_state (rx_lane sample_stray)
                 (rx_vc sample_stray) = false) by reflexivity.
  assert (H4 : ~ (same_header sample_state sample_stray
                  /\ rx_ret sample_stray - 3
                     = size (regReqEntry_ sample_state))).
  { intros [[_ H] _]. vm_compute in H. discriminate H. }
  destruct (correlate_unexpected_frame sample_state sample_stray H1 H2 H3 H4)
    as (_ & Hu & _ & Hr & He & _).
  split; [exact Hu|split; [exact Hr|exact He]].
Defined.

Lemma classify_data_iff_masks_witness :
  isData sample_state 2 0 = true /\ isData sample_state 2 1 = false
  /\ dataQueue_ (rxStep sample_state sample_data) = [[1; 2; 3; 4]].
Proof.
  assert (H1 : clean sample_data) by evaluated.
  assert (H2 : 0 <= rx_lane sample_data < 32) by evaluated.
  assert (H3 : 0 <= rx_vc sample_data < 32) by evaluated.
  destruct (classify_data_iff_masks sample_state sample_data H1 H2 H3)
    as (_ & _ & Hq & _ & Hex).
  destruct (Hex eq_refl eq_refl) as [Ha Hb].
  split; [exact Ha|split; [exact Hb|]].
  rewrite (Hq eq_refl). reflexivity.
Defined.

Lemma scheduler_serves_highest_pending_witness :
  exists c,
    highest sample_last sample_state = Some c
    /\ sent (snd (ioCycle sample_last sample_state failing_link))
       = [argsOf c sample_state].
Proof.
  destruct (scheduler_serves_highest_pending sample_last sample_state
              failing_link (ex_intro _ Reg eq_refl))
    as (c & Hc & _ & _ & _ & Hs & _).
  exists c. split; [exact Hc|exact Hs].
Defined.

Lemma transmit_retries_until_success_witness :
  exists lk',
    transmit 2 flaky_link [] MultTypeData (PRaw [1; 2; 3; 4]) 16 0 0
      = Some (20, lk')
    /\ calls lk' = 3%nat.
Proof.
  assert (H1 : setup [] MultTypeData (PRaw [1; 2; 3; 4]) 16 0 0
               = Some (mkSendArgs [1; 2; 3; 4] 4 0 0)) by reflexivity.
  assert (H2 : forall i, (i < 2)%nat ->
                 sendRet flaky_link (calls flaky_link + i) < 0).
  { intros [|[|i]] Hi; [reflexivity|reflexivity|lia]. }
  assert (H3 : 0 <= sendRet flaky_link (calls flaky_link + 2) < 2 ^ 29)
    by evaluated.
  destruct (transmit_retries_until_success flaky_link [] MultTypeData
              (PRaw [1; 2; 3; 4]) 16 0 0 _ 2 H1 H2 H3) as (Hok & _ & _).
  destruct (Hok 2%nat (le_n 2)) as (lk' & Ht & Hc & _).
  exists lk'. split; [exact Ht|exact Hc].
Defined.

Lemma sync_receive_copies_payload_for_acks_witness :
  o_type (receive (fun _ => false) sample_reg sample_ack)
    = Some MultTypeRegisterWrite
  /\ data (o_reg (receive (fun _ => false) sample_reg sample_ack))
     = [0x77; 0x88].
Proof.
  assert (H1 : clean sample_ack) by evaluated.
  assert (H2 : received31 sample_ack) by evaluated.
  assert (H3 : control (fun _ => false) sample_ack) by reflexivity.
  assert (H4 : rx_ret sample_ack - 3 <= signed (size sample_reg))
    by evaluated.
  destruct (sync_receive_copies_payload_for_acks (fun _ => false) sample_reg
              sample_ack sample_state [] 0 H1 H2 H3 H4)
    as (_ & _ & _ & Hack & _).
  destruct (Hack eq_refl) as [Ht Hd].
  split; [exact Ht|exact Hd].
Defined.

End Samples.

(** * Further properties of the code *)

(** ** The receive loop over several answers *)

Section RxLoop.

Import Word32 PgpCardG3Link.

Lemma rxStep_none s rx : rx_ret rx <= 0 -> rxStep s rx = s.
Proof.
  intros H. unfold rxStep. destruct (Z.leb_spec (rx_ret rx) 0); [reflexivity|lia].
Qed.

Lemma rxStep_flagged s rx :
  0 < rx_ret rx ->
  rxStep s rx =
    if rxFlagged rx then set_errorCount_ s (incr (errorCount_ s))
    else if isData s (rx_lane rx) (rx_vc rx)
    then set_dataQueue_ s (dataQueue_ s ++ [queuedWords rx])
    else correlate s (rx_buf rx) (rx_ret rx).
Proof.
  intros H. unfold rxStep, rxFlagged, queuedWords.
  destruct (Z.leb_spec (rx_ret rx) 0); [lia|reflexivity].
Qed.

(** Every answer that brings words falls in exactly one of the four
    cases. *)
Lemma rx_partition s rx :
  Z.b2z (0 <? rx_ret rx) =
    Z.b2z (rxBad rx) + Z.b2z (rxQueued s rx)
    + Z.b2z (rxAwaited s rx) + Z.b2z (rxStray s rx).
Proof.
  unfold rxBad, rxQueued, rxAwaited, rxStray.
  destruct (0 <? rx_ret rx), (rxFlagged rx),
    (isData s (rx_lane rx) (rx_vc rx)),
    (matches s (rx_buf rx) (rx_ret rx)); reflexivity.
Qed.

(** The fields a pass of the receive loop reads for its decisions are
    among those it leaves alone. *)
Lemma rxStep_view s rx : rxView s (rxStep s rx).
Proof.
  unfold rxView, rxStep, correlate.
  destruct (rx_ret rx <=? 0); [repeat split|].
  destruct ((rx_ret rx <? 4) || nz (rx_eofe rx) || nz (rx_fifoErr rx)
            || nz (rx_lengthErr rx)); [repeat split|].
  destruct (isData s (rx_lane rx) (rx_vc rx)); [repeat split|].
  destruct (matches s (rx_buf rx) (rx_ret rx)); [|repeat split].
  destruct (negb (regReqWrite_ s)); [|repeat split].
  destruct (Buf.load (rx_buf rx) (rx_ret rx - 1) =? 0); repeat split.
Qed.

Lemma rxView_tests s s' rx :
  rxView s s' ->
  rxQueued s' rx = rxQueued s rx
  /\ rxAwaited s' rx = rxAwaited s rx
  /\ rxStray s' rx = rxStray s rx.
Proof.
  intros (Hd & Hb & Hz).
  unfold rxQueued, rxAwaited, rxStray, isData, matches, vcMask, laneMask.
  rewrite Hd, Hb, Hz. repeat split.
Qed.

Lemma rxView_trans s1 s2 s3 : rxView s1 s2 -> rxView s2 s3 -> rxView s1 s3.
Proof.
  intros (A1 & A2 & A3) (B1 & B2 & B3). unfold rxView.
  rewrite B1, B2, B3. auto.
Qed.

Lemma rxRun_view rxs : forall s, rxView s (rxRun s rxs).
Proof.
  induction rxs as [|rx rxs IH]; intros s; simpl.
  - repeat split.
  - eapply rxView_trans; [apply rxStep_view|apply IH].
Qed.

Lemma filter_ext_view s s' (rxs : list RxResult) :
  rxView s s' ->
  List.filter (rxQueued s') rxs = List.filter (rxQueued s) rxs
  /\ List.filter (rxAwaited s') rxs = List.filter (rxAwaited s) rxs
  /\ List.filter (rxStray s') rxs = List.filter (rxStray s) rxs.
Proof.
  intros Hv. repeat split; apply List.filter_ext; intros rx;
    destruct (rxView_tests s s' rx Hv) as (H1 & H2 & H3); assumption.
Qed.

Lemma rxStep_queue s rx :
  dataQueue_ (rxStep s rx) =
    dataQueue_ s ++ (if rxQueued s rx then [queuedWords rx] else []).
Proof.
  unfold rxQueued.
  destruct (Z.ltb_spec 0 (rx_ret rx)) as [Hp|Hn].
  - rewrite rxStep_flagged by assumption. cbn [andb].
    destruct (rxFlagged rx); cbn [negb andb]; [symmetry; apply app_nil_r|].
    destruct (isData s (rx_lane rx) (rx_vc rx)); [reflexivity|].
    unfold correlate.
    destruct (matches s (rx_buf rx) (rx_ret rx)); symmetry; apply app_nil_r.
  - rewrite rxStep_none by lia. symmetry. apply app_nil_r.
Qed.

Lemma count_cons {A : Type} (f : A -> bool) x l :
  count f (x :: l) = Z.b2z (f x) + count f l.
Proof.
  unfold count. simpl. destruct (f x); simpl Z.b2z; [|lia].
  cbn [length]. lia.
Qed.

Lemma count_ext {A : Type} (f g : A -> bool) l :
  (forall x, f x = g x) -> count f l = count g l.
Proof. intros H. unfold count. rewrite (List.filter_ext f g H). reflexivity. Qed.

Lemma count_nonneg {A : Type} (f : A -> bool) l : 0 <= count f l.
Proof. unfold count. lia. Qed.

Lemma rxRun_queue_aux (rxs : list RxResult) : forall s : State,
  dataQueue_ (rxRun s rxs) =
    dataQueue_ s ++ map queuedWords (List.filter (rxQueued s) rxs).
Proof.
  induction rxs as [|rx rxs IH]; intros s.
  - simpl. symmetry. apply app_nil_r.
  - change (rxRun s (rx :: rxs)) with (rxRun (rxStep s rx) rxs).
    rewrite IH.
    destruct (filter_ext_view s (rxStep s rx) rxs (rxStep_view s rx))
      as (-> & _ & _).
    rewrite rxStep_queue. cbn [List.filter].
    destruct (rxQueued s rx); cbn [map]; rewrite <- app_assoc; reflexivity.
Qed.

(** X1. The data queue is first in, first out over any run of the
    receive loop: after the run it is the queue before it followed by the
    words of the frames classified as data, in the order they were
    received; no other answer adds to it and none removes from it. *)
Theorem rxRun_queue_fifo (rxs : list RxResult) : forall s : State,
  dataQueue_ (rxRun s rxs) =
    dataQueue_ s ++ map queuedWords (List.filter (rxQueued s) rxs).
Proof.
  induction rxs as [|rx rxs IH]; intros s.
  - simpl. symmetry. apply app_nil_r.
  - change (rxRun s (rx :: rxs)) with (rxRun (rxStep s rx) rxs).
    rewrite IH, rxStep_queue.
    destruct (filter_ext_view s (rxStep s rx) rxs (rxStep_view s rx))
      as (-> & _ & _).
    cbn [List.filter].
    destruct (rxQueued s rx); cbn [map]; rewrite <- app_assoc; reflexivity.
Qed.

Lemma rxStep_counters s rx :
  errorCount_ (rxStep s rx)
    = (if rxBad rx then incr (errorCount_ s) else errorCount_ s)
  /\ regRespCnt_ (rxStep s rx)
    = (if rxAwaited s rx then incr (regRespCnt_ s) else regRespCnt_ s)
  /\ unexpCount_ (rxStep s rx)
    = (if rxStray s rx then incr (unexpCount_ s) else unexpCount_ s).
Proof.
  unfold rxBad, rxAwaited, rxStray.
  destruct (Z.ltb_spec 0 (rx_ret rx)) as [Hp|Hn].
  - rewrite rxStep_flagged by assumption. cbn [andb].
    destruct (rxFlagged rx); cbn [negb andb]; [repeat split|].
    destruct (isData s (rx_lane rx) (rx_vc rx)); cbn [negb andb];
      [repeat split|].
    unfold correlate.
    destruct (matches s (rx_buf rx) (rx_ret rx)); repeat split.
  - rewrite rxStep_none by lia. repeat split.
Qed.

(** A counter that each pass either increments or keeps, by a test that
    depends on the state only through what the loop leaves alone. *)
Lemma rxRun_counter (get : State -> Z) (test : State -> RxResult -> bool) :
  (forall s rx,
     get (rxStep s rx) = if test s rx then incr (get s) else get s) ->
  (forall s s' rx, rxView s s' -> test s' rx = test s rx) ->
  forall rxs s,
    u32 (get s) -> get (rxRun s rxs) = wrap (get s + count (test s) rxs).
Proof.
  intros Hstep Hext.
  induction rxs as [|rx rxs IH]; intros s Hu.
  - simpl. unfold count. simpl. rewrite Z.add_0_r. symmetry.
    apply wrap_small. exact Hu.
  - change (rxRun s (rx :: rxs)) with (rxRun (rxStep s rx) rxs).
    assert (Hu' : u32 (get (rxStep s rx))).
    { rewrite Hstep. destruct (test s rx); [apply wrap_range|exact Hu]. }
    rewrite (IH _ Hu').
    rewrite (count_ext (test (rxStep s rx)) (test s))
      by (intros x; apply Hext, rxStep_view).
    rewrite count_cons, Hstep.
    destruct (test s rx); simpl Z.b2z.
    + unfold incr, wrap. rewrite Z.add_mod_idemp_l by (unfold modulus; lia).
      f_equal. lia.
    + reflexivity.
Qed.

(** X2. Over any run of the receive loop every answer that brings words
    is accounted for exactly once: it is counted in [errorCount_] (fewer
    than 4 words or an error flag), or queued as data, or counted in
    [regRespCnt_] (the awaited response), or counted in [unexpCount_];
    each counter ends as its start value plus the number of such answers,
    modulo 2^32. *)
Theorem rxRun_tallies (s : State) (rxs : list RxResult) :
  u32 (errorCount_ s) -> u32 (regRespCnt_ s) -> u32 (unexpCount_ s) ->
  let s' := rxRun s rxs in
  errorCount_ s' = wrap (errorCount_ s + count rxBad rxs)
  /\ regRespCnt_ s' = wrap (regRespCnt_ s + count (rxAwaited s) rxs)
  /\ unexpCount_ s' = wrap (unexpCount_ s + count (rxStray s) rxs)
  /\ Z.of_nat (length (dataQueue_ s'))
     = Z.of_nat (length (dataQueue_ s)) + count (rxQueued s) rxs
  /\ count (fun rx => 0 <? rx_ret rx) rxs
     = count rxBad rxs + count (rxQueued s) rxs
       + count (rxAwaited s) rxs + count (rxStray s) rxs.
Proof.
  intros He Hr Hu s'. subst s'.
  split; [|split; [|split; [|split]]].
  - apply (rxRun_counter errorCount_ (fun _ => rxBad)); [| |exact He].
    + intros s0 rx. apply rxStep_counters.
    + reflexivity.
  - apply (rxRun_counter regRespCnt_ rxAwaited); [| |exact Hr].
    + intros s0 rx. apply rxStep_counters.
    + intros s0 s1 rx Hv. apply (rxView_tests s0 s1 rx Hv).
  - apply (rxRun_counter unexpCount_ rxStray); [| |exact Hu].
    + intros s0 rx. apply rxStep_counters.
    + intros s0 s1 rx Hv. apply (rxView_tests s0 s1 rx Hv).
  - rewrite rxRun_queue_aux, length_app, length_map. unfold count. lia.
  - induction rxs as [|rx rxs IH].
    + reflexivity.
    + rewrite !count_cons, IH, (rx_partition s rx). lia.
Qed.

Lemma rxStep_kept s rx : keptByRx (rxStep s rx) = keptByRx s.
Proof.
  unfold keptByRx, rxStep, correlate.
  destruct (rx_ret rx <=? 0); [reflexivity|].
  destruct ((rx_ret rx <? 4) || nz (rx_eofe rx) || nz (rx_fifoErr rx)
            || nz (rx_lengthErr rx)); [reflexivity|].
  destruct (isData s (rx_lane rx) (rx_vc rx)); [reflexivity|].
  destruct (matches s (rx_buf rx) (rx_ret rx)); [|reflexivity].
  destruct (negb (regReqWrite_ s)); [|reflexivity].
  destruct (Buf.load (rx_buf rx) (rx_ret rx - 1) =? 0); reflexivity.
Qed.

Lemma rxRun_keeps_foreign_members_aux (rxs : list RxResult) :
  forall s : State, keptByRx (rxRun s rxs) = keptByRx s.
Proof.
  induction rxs as [|rx rxs IH]; intros s; [reflexivity|].
  change (rxRun s (rx :: rxs)) with (rxRun (rxStep s rx) rxs).
  rewrite IH. apply rxStep_kept.
Qed.

(** X3. Whatever it receives, the receive loop writes none of the
    members the callers and the transmit thread own: the data-source
    mask, [regBuff_], the request counters and entries, the write flag,
    [cmdRespCnt_], [dataRespCnt_], and the address and size of the
    outstanding register are after any run what they were before. *)
Theorem rxRun_keeps_foreign_members (rxs : list RxResult) : forall s : State,
  keptByRx (rxRun s rxs) = keptByRx s.
Proof.
  induction rxs as [|rx rxs IH]; intros s; [reflexivity|].
  change (rxRun s (rx :: rxs)) with (rxRun (rxStep s rx) rxs).
  rewrite IH. apply rxStep_kept.
Qed.

End RxLoop.

(** ** A register transaction through both threads *)

Section RoundTrip.

Import Word32 PgpCardG3Link.

Lemma load_of_take (b : list Z) (k : nat) (x0 x1 : Z) (rest : list Z) :
  take k b = x0 :: x1 :: rest -> Buf.load b 0 = x0 /\ Buf.load b 1 = x1.
Proof.
  intros H. unfold Buf.load. simpl.
  destruct k as [|[|k]]; try discriminate;
    destruct b as [|b0 [|b1 b]]; try discriminate.
  simpl in H. injection H as -> -> _. split; reflexivity.
Qed.




End RoundTrip.

(** ** The register buffer under the receive loop *)

Section RegisterShape.

Import Word32 PgpCardG3Link.

Lemma rxStep_wf s rx :
  reg_wf (regReqEntry_ s) -> received rx ->
  reg_wf (regReqEntry_ (rxStep s rx)).
Proof.
  intros Hwf [Hlen Hcap].
  destruct (Z.ltb_spec 0 (rx_ret rx)) as [Hp|Hn];
    [|rewrite rxStep_none by lia; exact Hwf].
  rewrite rxStep_flagged by assumption.
  destruct (rxFlagged rx) eqn:Hfl; [exact Hwf|].
  destruct (isData s (rx_lane rx) (rx_vc rx)); [exact Hwf|].
  unfold correlate.
  destruct (matches s (rx_buf rx) (rx_ret rx)) eqn:Hm; [|exact Hwf].
  assert (H4 : 4 <= rx_ret rx).
  { unfold rxFlagged in Hfl. rewrite !orb_false_iff in Hfl.
    destruct Hfl as [[[H _] _] _]. apply Z.ltb_ge in H. exact H. }
  unfold matches in Hm. apply andb_true_iff in Hm. destruct Hm as [_ Hm].
  apply Z.eqb_eq in Hm. rewrite wrap_small in Hm by lia.
  destruct Hwf as [Hsz Hdl].
  cbn [regReqEntry_ set_regRespCnt_ set_regReqEntry_].
  unfold reg_wf.
  destruct (negb (regReqWrite_ s)); [|split; assumption].
  destruct (Buf.load (rx_buf rx) (rx_ret rx - 1) =? 0);
    cbn [data size setStatus setData]; (split; [exact Hsz|]).
  - rewrite memcpy_whole by (assumption || lia).
    rewrite length_take, length_drop. lia.
  - rewrite memset_whole by (assumption || lia).
    apply length_replicate.
Qed.

(** X5. The receive loop never writes past the register's buffer: as
    long as each answer of the driver holds the words it announces, a
    register whose data buffer has exactly [size] words still has exactly
    [size] words after any run, whichever responses were copied or
    replaced by all-ones words. *)
Theorem rxRun_keeps_register_shape (rxs : list RxResult) : forall s : State,
  reg_wf (regReqEntry_ s) -> Forall received rxs ->
  reg_wf (regReqEntry_ (rxRun s rxs))
  /\ size (regReqEntry_ (rxRun s rxs)) = size (regReqEntry_ s).
Proof.
  induction rxs as [|rx rxs IH]; intros s Hwf Hall.
  - split; [exact Hwf|reflexivity].
  - change (rxRun s (rx :: rxs)) with (rxRun (rxStep s rx) rxs).
    apply Forall_cons in Hall. destruct Hall as [Hrx Hall].
    destruct (IH (rxStep s rx) (rxStep_wf s rx Hwf Hrx) Hall) as [H1 H2].
    split; [exact H1|]. rewrite H2.
    apply (rxStep_view s rx).
Qed.

End RegisterShape.

(** ** The transmit loop over several passes *)

Section Drain.

Import Word32 PgpCardG3Link.

Lemma pending_after l s lk c c' :
  highest l s = Some c ->
  pending c' (fst (fst (ioCycle l s lk))) (snd (fst (ioCycle l s lk)))
    = if Class_eqb c' c then false else pending c' l s.
Proof.
  intros Hh. rewrite ioCycle_highest, Hh.
  destruct c, c'; unfold pending; cbn; try reflexivity;
    rewrite Z.eqb_refl; reflexivity.
Qed.

Lemma pendingList_head l s :
  highest l s = head (pendingList l s).
Proof.
  unfold highest, pendingList, classes. cbn [List.filter].
  destruct (pending Run l s); [reflexivity|].
  destruct (pending Reg l s); [reflexivity|].
  destruct (pending Cmd l s); [reflexivity|].
  destruct (pending Dat l s); reflexivity.
Qed.

Lemma pendingList_after l s lk c rest :
  pendingList l s = c :: rest ->
  pendingList (fst (fst (ioCycle l s lk))) (snd (fst (ioCycle l s lk)))
    = rest.
Proof.
  intros Hp.
  assert (Hh : highest l s = Some c)
    by (rewrite pendingList_head, Hp; reflexivity).
  unfold pendingList, classes in *. cbn [List.filter] in *.
  rewrite !(pending_after l s lk c) by exact Hh.
  destruct (pending Run l s); [injection Hp as <- <-; reflexivity|].
  destruct (pending Reg l s); [injection Hp as <- <-; reflexivity|].
  destruct (pending Cmd l s); [injection Hp as <- <-; reflexivity|].
  destruct (pending Dat l s); [injection Hp as <- <-; reflexivity|].
  discriminate.
Qed.

(** The frames of the classes still waiting do not depend on what the
    pass just made wrote. *)
Lemma argsOf_after l s lk c rest :
  pendingList l s = c :: rest ->
  map (fun c' => argsOf c' (snd (fst (ioCycle l s lk)))) rest
    = map (fun c' => argsOf c' s) rest.
Proof.
  intros Hp.
  assert (Hh : highest l s = Some c)
    by (rewrite pendingList_head, Hp; reflexivity).
  rewrite ioCycle_highest, Hh.
  unfold pendingList, classes in Hp. cbn [List.filter] in Hp.
  destruct (pending Run l s); [injection Hp as <- <-; reflexivity|].
  destruct (pending Reg l s);
    [injection Hp as <- <-;
     destruct (pending Cmd l s), (pending Dat l s); reflexivity|].
  destruct (pending Cmd l s);
    [injection Hp as <- <-; destruct (pending Dat l s); reflexivity|].
  destruct (pending Dat l s); [injection Hp as <- <-; reflexivity|].
  discriminate.
Qed.

Lemma ioRun_drains n : forall l s lk,
  (length (pendingList l s) <= n)%nat ->
  pendingList (fst (fst (ioRun n l s lk))) (snd (fst (ioRun n l s lk))) = []
  /\ sent (snd (ioRun n l s lk))
     = sent lk ++ map (fun c => argsOf c s) (pendingList l s)
  /\ calls (snd (ioRun n l s lk))
     = (calls lk + length (pendingList l s))%nat.
Proof.
  induction n as [|n IH]; intros l s lk Hlen.
  - destruct (pendingList l s) eqn:E; [|simpl in Hlen; lia].
    cbn [ioRun fst snd map length]. rewrite E, app_nil_r, Nat.add_0_r. auto.
  - cbn [ioRun].
    destruct (pendingList l s) as [|c rest] eqn:E.
    + assert (Hh : highest l s = None)
        by (rewrite pendingList_head, E; reflexivity).
      rewrite ioCycle_highest, Hh.
      destruct (IH l s lk) as (H1 & H2 & H3); [rewrite E; simpl; lia|].
      rewrite E in H2, H3. auto.
    + assert (Hh : highest l s = Some c)
        by (rewrite pendingList_head, E; reflexivity).
      pose proof (pendingList_after l s lk c rest E) as Hrest.
      pose proof (argsOf_after l s lk c rest E) as Hargs.
      assert (Hsent : sent (snd (ioCycle l s lk)) = sent lk ++ [argsOf c s]
                      /\ calls (snd (ioCycle l s lk)) = S (calls lk)).
      { rewrite ioCycle_highest, Hh. destruct c; split; reflexivity. }
      destruct (ioCycle l s lk) as [[l' s'] lk'].
      cbn [fst snd] in Hrest, Hargs, Hsent.
      destruct (IH l' s' lk') as (H1 & H2 & H3);
        [rewrite Hrest; simpl in Hlen; lia|].
      split; [exact H1|].
      rewrite H2, H3, Hrest, Hargs.
      destruct Hsent as [-> ->]. cbn [map length].
      rewrite <- app_assoc. split; [reflexivity|lia].
Qed.

Lemma pendingList_le4 l s : (length (pendingList l s) <= 4)%nat.
Proof.
  unfold pendingList, classes. cbn [List.filter].
  destruct (pending Run l s), (pending Reg l s), (pending Cmd l s),
    (pending Dat l s); simpl; lia.
Qed.

(** X6. Left alone by the callers, the transmit loop serves every
    pending class exactly once, in the order run command, register,
    command, data, within four passes: after [n >= 4] passes no class is
    pending and the calls made to the send primitive are exactly the
    frames of the classes that were pending, in that order, each built
    from the requests as they were posted. *)
Theorem scheduler_drains_in_priority_order
        (n : nat) (l : Last) (s : State) (lk : Link) :
  (4 <= n)%nat ->
  let r := ioRun n l s lk in
  highest (fst (fst r)) (snd (fst r)) = None
  /\ sent (snd r) = sent lk ++ map (fun c => argsOf c s) (pendingList l s)
  /\ calls (snd r) = (calls lk + length (pendingList l s))%nat.
Proof.
  intros Hn r. subst r.
  pose proof (pendingList_le4 l s) as H4.
  destruct (ioRun_drains n l s lk) as (H1 & H2 & H3); [lia|].
  split; [|split; assumption].
  rewrite pendingList_head, H1. reflexivity.
Qed.

(** X7. A request posted before the transmit thread starts is never
    sent: the setup takes the request counters as already served, so
    that, until a caller changes one of them, every pass finds nothing
    pending, calls the send primitive not once and changes nothing. *)
Theorem requests_before_start_are_dropped
        (n : nat) (s : State) (lk : Link) :
  highest (ioInit s) s = None
  /\ ioRun n (ioInit s) s lk = (ioInit s, s, lk).
Proof.
  assert (Hh : highest (ioInit s) s = None).
  { unfold highest, pending, ioInit. cbn. rewrite !Z.eqb_refl. reflexivity. }
  split; [exact Hh|].
  induction n as [|n IH]; [reflexivity|].
  cbn [ioRun]. rewrite ioCycle_highest, Hh. exact IH.
Qed.

Lemma ioCycle_kept l s lk :
  keptByIo (snd (fst (ioCycle l s lk))) = keptByIo s.
Proof.
  rewrite ioCycle_highest. destruct (highest l s) as [[]|]; reflexivity.
Qed.

(** X8. Whatever is pending, the transmit loop writes none of the
    members the callers and the receive thread own: the request counters
    and entries, the outstanding register with its data and status,
    [regRespCnt_], the error tallies and the data queue are after any
    number of passes what they were before. *)
Theorem ioRun_keeps_foreign_members (n : nat) : forall l s lk,
  keptByIo (snd (fst (ioRun n l s lk))) = keptByIo s.
Proof.
  induction n as [|n IH]; intros l s lk; [reflexivity|].
  cbn [ioRun]. pose proof (ioCycle_kept l s lk) as Hk.
  destruct (ioCycle l s lk) as [[l' s'] lk']. cbn [fst snd] in Hk.
  rewrite IH. exact Hk.
Qed.

End Drain.

(** ** Routing derived from the content (asynchronous variant) *)

Section ContentRouting.

Import Word32 PgpCardG3Link.

Lemma bitscan_log2 fuel : forall b n,
  0 <= b < 2 ^ Z.of_nat fuel -> 0 <= n -> n + Z.of_nat fuel < 2 ^ 32 ->
  bitscan fuel b n = n + Z.log2 b.
Proof.
  induction fuel as [|fuel IH]; intros b n Hb Hn Hfit.
  - assert (b = 0) by (simpl in Hb; lia). subst b. simpl. lia.
  - cbn [bitscan]. unfold shr. rewrite Z.shiftr_div_pow2 by lia.
    change (2 ^ 1) with 2.
    destruct (Z.eqb_spec (b / 2) 0) as [E|E].
    + assert (Hlt : b < 2) by (apply Z.div_small_iff in E; lia).
      assert (Hl : Z.log2 b = 0).
      { destruct (Z.eq_dec b 0) as [->|]; [reflexivity|].
        replace b with 1 by lia. reflexivity. }
      lia.
    + assert (H2 : 2 <= b).
      { destruct (Z.lt_ge_cases b 2) as [Hlt|]; [|assumption].
        exfalso. apply E. apply Z.div_small. lia. }
      rewrite IH.
      * rewrite incr_small by lia.
        rewrite <- Z.shiftr_div_pow2 with (n := 1) by lia.
        rewrite Z.log2_shiftr by lia.
        assert (1 <= Z.log2 b) by (apply Z.log2_le_pow2; simpl; lia).
        lia.
      * split; [apply Z.div_pos; lia|].
        apply Z.div_lt_upper_bound; [lia|].
        rewrite Nat2Z.inj_succ, Z.pow_succ_r in Hb by lia. lia.
      * unfold incr. pose proof (wrap_range (n + 1)). lia.
      * rewrite incr_small by lia. lia.
Qed.

Lemma nibble_range x : 0 <= Z.land x 0xF < 16.
Proof.
  change 0xF with (Z.ones 4). rewrite Z.land_ones by lia.
  apply Z.mod_pos_bound. lia.
Qed.

Lemma nibble_scan x :
  bitscan 32 (Z.land x 0xF) 0 = Z.log2 (Z.land x 0xF)
  /\ 0 <= Z.log2 (Z.land x 0xF) <= 3.
Proof.
  pose proof (nibble_range x) as Hr. split.
  - rewrite bitscan_log2; [lia| |lia|simpl; lia].
    change (Z.of_nat 32) with 32. lia.
  - split; [apply Z.log2_nonneg|].
    destruct (Z.eq_dec (Z.land x 0xF) 0) as [->|Hne]; [simpl; lia|].
    assert (Z.log2 (Z.land x 0xF) < 4) by (apply Z.log2_lt_pow2; lia).
    lia.
Qed.

(** X9. Routing of a data frame in the asynchronous variant: the lane
    sent is the position of the highest bit set in bits 7:4 of
    [dataReqAddr_], the vc that of the highest bit set in bits 3:0, both
    between 0 and 3; a mask with the single bit k gives k, and an empty
    mask gives 0, as the mask with only bit 0 does. *)
Theorem data_routing_is_highest_mask_bit (s : State) :
  let a := argsOf Dat s in
  let laneBits := Z.land (Z.shiftr (dataReqAddr_ s) 4) 0xF in
  let vcBits := Z.land (dataReqAddr_ s) 0xF in
  s_lane a = Z.log2 laneBits /\ 0 <= s_lane a <= 3
  /\ s_vc a = Z.log2 vcBits /\ 0 <= s_vc a <= 3
  /\ (forall k, 0 <= k -> laneBits = 2 ^ k -> s_lane a = k)
  /\ (forall k, 0 <= k -> vcBits = 2 ^ k -> s_vc a = k)
  /\ (laneBits = 0 -> s_lane a = 0)
  /\ (vcBits = 0 -> s_vc a = 0)
  /\ frame_of a = take (Z.to_nat (dataReqLength_ s)) (dataReqEntry_ s).
Proof.
  cbv zeta. cbn [argsOf s_lane s_vc]. unfold shr.
  destruct (nibble_scan (Z.shiftr (dataReqAddr_ s) 4)) as [Hl Hlr].
  destruct (nibble_scan (dataReqAddr_ s)) as [Hv Hvr].
  rewrite Hl, Hv.
  repeat split; try lia.
  - intros k Hk ->. apply Z.log2_pow2. exact Hk.
  - intros k Hk ->. apply Z.log2_pow2. exact Hk.
  - intros ->. reflexivity.
  - intros ->. reflexivity.
Qed.

(** X10. Routing of a register frame in the asynchronous variant: the
    lane, the vc and the address field of the header are bits 31:28,
    27:24 and 23:0 of the register's address, so that a 32-bit address
    is lane * 2^28 + vc * 2^24 + field and nothing of it is lost. *)
Theorem register_routing_partitions_address (s : State) :
  u32 (address (regReqEntry_ s)) ->
  let a := regSendArgs s (regSetup s) in
  0 <= s_lane a <= 15 /\ 0 <= s_vc a <= 15
  /\ 0 <= addrB (regReqEntry_ s) < 2 ^ 24
  /\ address (regReqEntry_ s)
     = s_lane a * 2 ^ 28 + s_vc a * 2 ^ 24 + addrB (regReqEntry_ s).
Proof.
  intros Hu. cbv zeta. unfold regSendArgs, addrB, u32, shr in *.
  cbn [s_lane s_vc].
  set (x := address (regReqEntry_ s)) in *.
  change 0xF with (Z.ones 4). change 0x00FFFFFF with (Z.ones 24).
  rewrite !Z.land_ones, !Z.shiftr_div_pow2 by lia.
  replace (x / 2 ^ 28) with (x / 2 ^ 24 / 2 ^ 4)
    by (rewrite Z.div_div by lia; reflexivity).
  pose proof (Z.div_mod x (2 ^ 24)) as Hx.
  pose proof (Z.mod_pos_bound x (2 ^ 24)) as Hr.
  set (q := x / 2 ^ 24) in *. set (r := x mod 2 ^ 24) in *.
  pose proof (Z.div_mod q (2 ^ 4)) as Hq.
  pose proof (Z.mod_pos_bound q (2 ^ 4)) as Hr'.
  assert (Hq0 : 0 <= q < 2 ^ 8).
  { change (2 ^ 32) with (2 ^ 24 * 2 ^ 8) in Hu. nia. }
  assert (Hs : 0 <= q / 2 ^ 4 < 2 ^ 4).
  { split; [apply Z.div_pos; lia|apply Z.div_lt_upper_bound; lia]. }
  rewrite (Z.mod_small (q / 2 ^ 4)) by exact Hs.
  clearbody q r.
  change (2 ^ 28) with 268435456. change (2 ^ 24) with 16777216 in *.
  change (2 ^ 4) with 16 in *. change (2 ^ 8) with 256 in *.
  change (Z.ones 4) with 15. lia.
Qed.

(** X11. Command and run-command frames of the asynchronous variant
    are the four words 0, opCode & 0xFF, 0, 0, sent on lane opCode bits
    15:12 and vc opCode bits 11:8: the low 16 bits of the opCode are
    lane * 2^12 + vc * 2^8 + word1, and two opCodes that agree on them
    are sent alike. *)
Theorem command_routing_uses_low_16_bits (c : Class) (s s' : State) :
  (c = Cmd /\ cmdReqEntry_ s mod 2 ^ 16 = cmdReqEntry_ s' mod 2 ^ 16)
  \/ (c = Run /\ runReqEntry_ s mod 2 ^ 16 = runReqEntry_ s' mod 2 ^ 16) ->
  let op := match c with Run => runReqEntry_ s | _ => cmdReqEntry_ s end in
  let a := argsOf c s in
  argsOf c s' = a
  /\ frame_of a = [0; Z.land op 0xFF; 0; 0]
  /\ op mod 2 ^ 16 = s_lane a * 2 ^ 12 + s_vc a * 2 ^ 8 + Z.land op 0xFF.
Proof.
  assert (Hkey : forall x y, x mod 2 ^ 16 = y mod 2 ^ 16 ->
            Z.land x 0xFF = Z.land y 0xFF
            /\ Z.land (shr x 12) 0xF = Z.land (shr y 12) 0xF
            /\ Z.land (shr x 8) 0xF = Z.land (shr y 8) 0xF
            /\ x mod 2 ^ 16
               = Z.land (shr x 12) 0xF * 2 ^ 12
                 + Z.land (shr x 8) 0xF * 2 ^ 8 + Z.land x 0xFF).
  { intros x y Hxy. unfold shr.
    change 0xF with (Z.ones 4). change 0xFF with (Z.ones 8).
    rewrite !Z.land_ones, !Z.shiftr_div_pow2 by lia.
    change (2 ^ 16) with 65536 in *. change (2 ^ 12) with 4096.
    change (2 ^ 8) with 256. change (2 ^ 4) with 16.
    Z.to_euclidean_division_equations. lia. }
  intros [[-> H]|[-> H]]; cbv zeta; cbn [argsOf s_lane s_vc];
    destruct (Hkey _ _ H) as (H1 & H2 & H3 & H4);
    unfold cmdFrame; rewrite <- H1, <- H2, <- H3;
    (split; [reflexivity|split; [reflexivity|exact H4]]).
Qed.

End ContentRouting.

(** ** More on the synchronous variant *)

Section SyncMore.

Import Word32 MultDestPgpMask.

Variable isDataSource : Z -> bool.

(** X12. The other two branches of [transmit].  A command is sent as
    the four words 0, opCode & 0xFF, 0, 0 on the command lane and vc of
    the configuration word: neither the context nor the upper opCode bits
    go out.  Data is sent from the caller's buffer as it is, [size/4]
    words of it on the data lane and vc, so that a byte count that is not
    a multiple of 4 loses its last bytes; the transmit buffer is not
    used. *)
Theorem sync_command_and_data_frames
        (txData_ words : list Z) (opCode size_ context config : Z) :
  4 <= Z.of_nat (length txData_) -> 0 <= size_ ->
  (exists a,
     setup txData_ MultTypeCommand (PCmd opCode) size_ context config = Some a
     /\ frame_of a = [0; Z.land opCode 0xFF; 0; 0]
     /\ (s_lane a, s_vc a) = (cmdLane config, cmdVc config))
  /\ (exists a,
     setup txData_ MultTypeData (PRaw words) size_ context config = Some a
     /\ s_buf a = words
     /\ (s_lane a, s_vc a) = (dataLane config, dataVc config)
     /\ frame_of a = take (Z.to_nat (size_ / 4)) words
     /\ (forall r, 0 <= r < 4 ->
           size_ = 4 * Z.of_nat (length words) + r -> frame_of a = words)).
Proof.
  intros H4 Hs. split.
  - eexists. split; [reflexivity|]. split; [|reflexivity].
    destruct txData_ as [|t0 [|t1 [|t2 [|t3 rest]]]];
      cbn [length] in H4; try lia.
    reflexivity.
  - eexists. split; [reflexivity|]. repeat split.
    intros r Hr ->. unfold frame_of. cbn [s_size s_buf].
    replace ((4 * Z.of_nat (length words) + r) / 4)
      with (Z.of_nat (length words))
      by (apply Z.div_unique with (r := r); lia).
    rewrite Nat2Z.id. apply take_ge. lia.
Qed.

Lemma testbit_FFFFFFFC i :
  0 <= i -> Z.testbit 0xFFFFFFFC i = (2 <=? i) && (i <? 32).
Proof.
  intros Hi. change 0xFFFFFFFC with (Z.shiftl (Z.ones 30) 2).
  rewrite Z.shiftl_spec by lia.
  destruct (Z.leb_spec 2 i).
  - rewrite Z.testbit_ones_nonneg by lia.
    destruct (Z.ltb_spec (i - 2) 30), (Z.ltb_spec i 32); lia || reflexivity.
  - apply Z.testbit_neg_r. lia.
Qed.

(** The address [receive] rebuilds from a header word of [transmit]. *)
Lemma header_address (isWrite : bool) (reg : Register) :
  shl (Z.lor (if isWrite then 0x40000000 else 0) (addrA reg)) 2
    = Z.land (address reg) 0xFFFFFFFC.
Proof.
  unfold shl, wrap, modulus, addrA.
  rewrite <- Z.land_ones by lia.
  apply Z.bits_inj'. intros i Hi.
  rewrite !Z.land_spec, testbit_FFFFFFFC by lia.
  rewrite Z.shiftl_spec by lia.
  destruct (Z.leb_spec 2 i) as [H2|H2].
  - rewrite Z.testbit_ones_nonneg by lia.
    destruct (Z.ltb_spec i 32) as [H32|H32];
      [|rewrite !andb_false_r; reflexivity].
    rewrite Z.lor_spec, Z.land_spec, Z.shiftr_spec by lia.
    change 0x3FFFFFFF with (Z.ones 30).
    rewrite Z.testbit_ones_nonneg by lia.
    destruct (Z.ltb_spec (i - 2) 30); [|lia].
    replace (i - 2 + 2) with i by lia.
    assert (Hfl : Z.testbit (if isWrite then 0x40000000 else 0) (i - 2)
                  = false).
    { destruct isWrite; [|apply Z.bits_0].
      change 0x40000000 with (2 ^ 30). apply Z.pow2_bits_false. lia. }
    rewrite Hfl. cbn [orb]. rewrite !andb_true_r. reflexivity.
  - rewrite (Z.testbit_neg_r _ (i - 2)) by lia.
    cbn [andb]. rewrite andb_false_r. reflexivity.
Qed.

(** X13. Header round trip of the synchronous variant.  When a frame
    that starts with the two header words [transmit] builds for a
    register read or write comes back as a control frame, [receive]
    gives back the same transaction type, the same context and the
    register's address with its two low bits cleared, whether or not the
    frame then passes the size check. *)
Theorem sync_header_round_trip
        (isWrite : bool) (txData_ : list Z) (reg rxRegister_ : Register)
        (size_ context config : Z) (a : SendArgs) (rx : RxResult) :
  reg_wf reg -> roomy txData_ (size reg) ->
  setup txData_
        (if isWrite then MultTypeRegisterWrite else MultTypeRegisterRead)
        (PReg reg) size_ context config = Some a ->
  clean rx -> control isDataSource rx ->
  take 2 (rx_buf rx) = take 2 (frame_of a) ->
  let out := receive isDataSource rxRegister_ rx in
  o_type out =
    Some (if isWrite then MultTypeRegisterWrite else MultTypeRegisterRead)
  /\ o_context out = Some context
  /\ o_ptr out = Some PtrRegister
  /\ address (o_reg out) = Z.land (address reg) 0xFFFFFFFC.
Proof.
  intros Hwf Hroom Hs Hc Hctl Hhdr out. subst out.
  assert (Hf : exists rest,
             frame_of a =
               context
               :: Z.lor (if isWrite then 0x40000000 else 0) (addrA reg)
               :: rest).
  { destruct isWrite.
    - destruct (setup_write_frame txData_ reg size_ context config Hwf Hroom)
        as (a' & Ha' & _ & Hf').
      rewrite Hs in Ha'. injection Ha' as <-. eexists. exact Hf'.
    - destruct (setup_read_frame txData_ reg size_ context config Hroom)
        as (a' & Ha' & _ & Hf').
      rewrite Hs in Ha'. injection Ha' as <-. eexists. exact Hf'. }
  destruct Hf as [rest Hf]. rewrite Hf in Hhdr.
  change (take 2 (context :: _ :: rest))
    with [context; Z.lor (if isWrite then 0x40000000 else 0) (addrA reg)]
    in Hhdr.
  destruct (load_of_take _ _ _ _ _ Hhdr) as [H0 H1].
  rewrite receive_control by assumption. cbv zeta.
  rewrite H0, H1.
  destruct (word1_flag_bit isWrite reg) as [Hbit _]. rewrite Hbit.
  destruct (rx_ret rx - 3 >? signed (size rxRegister_));
    cbn [o_type o_context o_ptr o_reg address setStatus setData setAddress];
    (repeat split; try apply header_address;
     destruct isWrite; reflexivity).
Qed.



End SyncMore.

(** ** The event-receiver control word *)

Section EvrControl.

Import Word32 PgpCardG3Link.



Lemma land_1_cases x : Z.land x 1 = 0 \/ Z.land x 1 = 1.
Proof.
  assert (H : Z.land x 1 = x mod 2).
  { change 1 with (Z.ones 1). apply Z.land_ones. lia. }
  rewrite H. pose proof (Z.mod_pos_bound x 2). lia.
Qed.

(** X15. The enable bit of the event receiver.  After [setEvrEnable b],
    [getEvrEnable] answers [b]; the lane mask, the status and the error
    word read as before; setting the same value again changes nothing
    more. *)
Theorem evr_enable_round_trip (r : PgpCardReg) (b : bool) :
  let r' := setEvrEnable r b in
  getEvrEnable r' = b
  /\ getEvrEnableLane r' = getEvrEnableLane r
  /\ getEvrStatus r' = getEvrStatus r
  /\ getEvrErrors r' = getEvrErrors r
  /\ getEvrStatRaw (setEvrEnable r' b) = getEvrStatRaw r'.
Proof.
  cbv zeta.
  unfold getEvrEnable, getEvrEnableLane, getEvrStatus, getEvrErrors,
    getEvrStatRaw, setEvrEnable, shr.
  destruct b; cbn [evrCardStat set_evrCardStat upd Z.eqb Pos.eqb].
  - split; [|split; [|repeat split]].
    + rewrite Z.land_lor_distr_l. change (Z.land 1 1) with 1.
      destruct (land_1_cases (evrCardStat r 1)) as [-> | ->]; reflexivity.
    + rewrite Z.shiftr_lor. change (Z.shiftr 1 16) with 0.
      rewrite Z.lor_0_r. reflexivity.
    + rewrite <- Z.lor_assoc. reflexivity.
  - split; [|split; [|repeat split]].
    + rewrite <- Z.land_assoc. change (Z.land 0xFFFFFFFE 1) with 0.
      rewrite Z.land_0_r. reflexivity.
    + rewrite Z.shiftr_land, <- Z.land_assoc. reflexivity.
    + rewrite <- Z.land_assoc. reflexivity.
Qed.


End EvrControl.

(** ** Opening and closing the link *)

Section Lifecycle.

Import PgpCardG3Link.

(** X17. Opening and closing.  [close] leaves the descriptor at -1 and
    a second [close] does nothing; it stops the threads and closes the
    descriptor only when one is held.  [open] never closes a descriptor
    already held.  When [::open] fails, a later [close] makes no call;
    when [mmap] fails, [open] throws with the descriptor still held and
    the threads not started, and a later [close] calls
    [CommLink::close] and closes that descriptor. *)
Theorem link_open_close (d : Dev) (fdRet : Z) (mapFailed : bool) :
  let d' := fst (open d fdRet mapFailed) in
  let thrown := snd (open d fdRet mapFailed) in
  fd_ (close d) = -1
  /\ close (close d) = close d
  /\ log_ (close d) =
       log_ d ++ (if 0 <=? fd_ d then [CommLinkClose; SysClose (fd_ d)]
                  else [])
  /\ thrown = (fdRet <? 0) || mapFailed
  /\ fd_ d' = fdRet
  /\ log_ d' =
       log_ d ++ [SysOpen]
       ++ (if fdRet <? 0 then []
           else SysMmap fdRet :: (if mapFailed then [] else [CommLinkOpen]))
  /\ (fdRet < 0 -> log_ (close d') = log_ d')
  /\ (0 <= fdRet -> mapFailed = true ->
      log_ (close d')
        = log_ d ++ [SysOpen; SysMmap fdRet; CommLinkClose; SysClose fdRet]).
Proof.
  cbv zeta. unfold open, close. cbn [fd_ log_].
  destruct (Z.leb_spec 0 (fd_ d)); cbn [fd_ log_ Z.leb Z.compare];
    (split; [reflexivity|]); (split; [reflexivity|]);
    (split; [rewrite ?app_nil_r; reflexivity|]);
    destruct (Z.ltb_spec fdRet 0) as [Hn|Hp], mapFailed;
      cbn [fst snd fd_ log_ orb];
      rewrite <- ?app_assoc; cbn [app];
      repeat split; try reflexivity; try lia; try discriminate;
      intros;
      try (destruct (Z.leb_spec 0 fdRet); [lia|reflexivity]);
      try (destruct (Z.leb_spec 0 fdRet); [|lia];
           cbn [log_]; rewrite <- ?app_assoc; reflexivity).
Qed.

End Lifecycle.

(** ** Responses nobody waits for *)

Section Duplicates.

Import Word32 PgpCardG3Link.

Lemma count_replicate {A : Type} (f : A -> bool) (x : A) (k : nat) :
  f x = true -> count f (replicate k x) = Z.of_nat k.
Proof.
  intros Hf. induction k as [|k IH]; [reflexivity|].
  cbn [replicate]. rewrite count_cons, Hf, IH. simpl Z.b2z. lia.
Qed.

(** X18. The correlator does not look at the request counter: a control
    frame with the header and size left in [regBuff_] and the register is
    taken as a response every time it arrives, so that [k] copies of it
    add [k] to [regRespCnt_] (modulo 2^32) and none to [unexpCount_],
    also when no request is outstanding. *)
Theorem duplicate_responses_are_all_counted
        (s : State) (rx : RxResult) (k : nat) :
  u32 (regRespCnt_ s) -> u32 (unexpCount_ s) ->
  rxAwaited s rx = true ->
  let s' := rxRun s (replicate k rx) in
  regRespCnt_ s' = wrap (regRespCnt_ s + Z.of_nat k)
  /\ unexpCount_ s' = unexpCount_ s
  /\ regReqCnt_ s' = regReqCnt_ s.
Proof.
  intros Hr Hu Ha s'. subst s'.
  split; [|split].
  - rewrite (rxRun_counter regRespCnt_ rxAwaited); [| | |exact Hr].
    + rewrite count_replicate by exact Ha. reflexivity.
    + intros s0 rx0. apply rxStep_counters.
    + intros s0 s1 rx0 Hv. apply (rxView_tests s0 s1 rx0 Hv).
  - rewrite (rxRun_counter unexpCount_ rxStray); [| | |exact Hu].
    + assert (Hn : count (rxStray s) (replicate k rx) = 0).
      { induction k as [|k IH]; [reflexivity|].
        cbn [replicate]. rewrite count_cons, IH.
        unfold rxStray, rxAwaited in *.
        destruct (0 <? rx_ret rx), (rxFlagged rx),
          (isData s (rx_lane rx) (rx_vc rx)),
          (matches s (rx_buf rx) (rx_ret rx)); try discriminate Ha;
          reflexivity. }
      rewrite Hn, Z.add_0_r. apply wrap_small. exact Hu.
    + intros s0 rx0. apply rxStep_counters.
    + intros s0 s1 rx0 Hv. apply (rxView_tests s0 s1 rx0 Hv).
  - pose proof (rxRun_keeps_foreign_members_aux (replicate k rx) s) as Hk.
    unfold keptByRx in Hk. congruence.
Qed.

End Duplicates.

(** ** The further statements on sample values *)

Section MoreSamples.

Import Word32 MultDestPgpMask PgpCardG3Link.

Local Ltac evaluated :=
  vm_compute; repeat split;
  first [reflexivity | discriminate | (intro; discriminate) | lia].

Lemma rxRun_tallies_witness :
  errorCount_ (rxRun sample_state sample_run) = 1
  /\ regRespCnt_ (rxRun sample_state sample_run) = 1
  /\ unexpCount_ (rxRun sample_state sample_run) = 1
  /\ Z.of_nat (length (dataQueue_ (rxRun sample_state sample_run))) = 1.
Proof.
  assert (H1 : u32 (errorCount_ sample_state)) by evaluated.
  assert (H2 : u32 (regRespCnt_ sample_state)) by evaluated.
  assert (H3 : u32 (unexpCount_ sample_state)) by evaluated.
  destruct (rxRun_tallies sample_state sample_run H1 H2 H3)
    as (He & Hr & Hu & Hq & _).
  split; [exact He|split; [exact Hr|split; [exact Hu|exact Hq]]].
Defined.


Lemma rxRun_keeps_register_shape_witness :
  reg_wf (regReqEntry_ (rxRun sample_state sample_run)).
Proof.
  assert (H1 : reg_wf (regReqEntry_ sample_state)) by evaluated.
  assert (H2 : Forall received sample_run).
  { unfold sample_run. repeat apply Forall_cons_2; [..|apply Forall_nil_2];
      evaluated. }
  exact (proj1 (rxRun_keeps_register_shape sample_run sample_state H1 H2)).
Defined.

Lemma scheduler_drains_in_priority_order_witness :
  sent (snd (ioRun 4 sample_last sample_state failing_link))
    = [argsOf Reg sample_state].
Proof.
  destruct (scheduler_drains_in_priority_order 4 sample_last sample_state
              failing_link (le_n 4)) as (_ & Hs & _).
  exact Hs.
Defined.

Lemma data_routing_is_highest_mask_bit_witness :
  s_lane (argsOf Dat (set_regBuff_ sample_state [])) = 0.
Proof.
  destruct (data_routing_is_highest_mask_bit (set_regBuff_ sample_state []))
    as (_ & _ & _ & _ & _ & _ & H0 & _).
  exact (H0 eq_refl).
Defined.

Lemma register_routing_partitions_address_witness :
  address (regReqEntry_ sample_state) = 0 * 2 ^ 28 + 0 * 2 ^ 24 + 0x1000.
Proof.
  assert (H1 : u32 (address (regReqEntry_ sample_state))) by evaluated.
  destruct (register_routing_partitions_address sample_state H1)
    as (_ & _ & _ & Ha).
  exact Ha.
Defined.

Lemma command_routing_uses_low_16_bits_witness :
  frame_of (argsOf Cmd sample_state) = [0; 0; 0; 0].
Proof.
  destruct (command_routing_uses_low_16_bits Cmd sample_state sample_state
              (or_introl (conj eq_refl eq_refl))) as (_ & Hf & _).
  exact Hf.
Defined.

Lemma sync_command_and_data_frames_witness :
  exists a,
    setup (replicate 8 0) MultTypeCommand (PCmd 0x1234) 16 0x55 0 = Some a
    /\ frame_of a = [0; 0x34; 0; 0].
Proof.
  assert (H1 : 4 <= Z.of_nat (length (replicate 8 0))) by evaluated.
  assert (H2 : 0 <= 16) by evaluated.
  destruct (sync_command_and_data_frames (replicate 8 0) [1; 2; 3; 4]
              0x1234 16 0x55 0 H1 H2) as ((a & Ha & Hf & _) & _).
  exists a. split; [exact Ha|exact Hf].
Defined.

Lemma sync_header_round_trip_witness :
  address (o_reg (receive (fun _ => false) sample_reg sample_echo)) = 0x1000
  /\ o_type (receive (fun _ => false) sample_reg sample_echo)
     = Some MultTypeRegisterWrite.
Proof.
  assert (H1 : reg_wf sample_reg) by evaluated.
  assert (H2 : roomy (replicate 8 0) (size sample_reg)) by evaluated.
  assert (H3 : setup (replicate 8 0) MultTypeRegisterWrite (PReg sample_reg)
                     0 0x55 0
               = Some (mkSendArgs
                         [0x55; 0x40000400; 0xAAAA; 0xBBBB; 0; 0; 0; 0]
                         5 0 0)) by reflexivity.
  assert (H4 : clean sample_echo) by evaluated.
  assert (H5 : control (fun _ => false) sample_echo) by reflexivity.
  destruct (sync_header_round_trip (fun _ => false) true (replicate 8 0)
              sample_reg sample_reg 0 0x55 0 _ sample_echo
              H1 H2 H3 H4 H5 eq_refl) as (Ht & _ & _ & Ha).
  split; [exact Ha|exact Ht].
Defined.


Lemma duplicate_responses_are_all_counted_witness :
  regRespCnt_ (rxRun sample_state (replicate 3 sample_response)) = 3.
Proof.
  assert (H1 : u32 (regRespCnt_ sample_state)) by evaluated.
  assert (H2 : u32 (unexpCount_ sample_state)) by evaluated.
  assert (H3 : rxAwaited sample_state sample_response = true) by reflexivity.
  exact (proj1 (duplicate_responses_are_all_counted sample_state
                  sample_response 3 H1 H2 H3)).
Defined.


Lemma link_open_close_witness :
  log_ (close (fst (open newDev 3 true)))
    = [SysOpen; SysMmap 3; CommLinkClose; SysClose 3].
Proof.
  assert (H1 : 0 <= 3) by evaluated.
  destruct (link_open_close newDev 3 true)
    as (_ & _ & _ & _ & _ & _ & _ & Hm).
  exact (Hm H1 eq_refl).
Defined.

End MoreSamples.
